(** * The authenticated request pipeline of [lib/api.js]

    A shallow embedding of the client's header construction
    ([API.prototype._getHeaders]), request dispatch ([API.prototype._doRequest]
    and its four verb wrappers), response classification (the callback handed
    to [this.request], and [API._parseError]) and of the public operations.
    What the code writes to the log and to the console is left out, except
    where computing what is written can throw. *)

From Stdlib Require Import ZArith Ascii String List Lia.
From stdpp Require Import base option gmap strings list fin_maps.

Local Open Scope string_scope.
Local Open Scope Z_scope.

(** ** JavaScript values

    Numbers are the integers among the JavaScript numbers (status codes,
    lengths, the cache-busting number); fractions, NaN and the infinities are
    outside the model.  An object is the finite map of its own entries: an
    entry whose value is [VUndefined] is present, which is not the same as no
    entry. *)
#[warnings="-register-all"]
Inductive value : Type :=
| VUndefined
| VNull
| VBool (b : bool)
| VNum (n : Z)
| VStr (s : string)
| VArr (l : list value)
| VObj (m : gmap string value).

(** ** Faults

    A JavaScript exception that leaves the function it is raised in. *)
Inductive exn : Type :=
| TypeError
| SyntaxError.

Inductive result (A : Type) : Type :=
| Ok (a : A)
| Throw (e : exn).
Arguments Ok {A} a.
Arguments Throw {A} e.

#[global] Instance result_ret : MRet result := fun A a => Ok a.

#[global] Instance result_bind : MBind result := fun A B k r =>
  match r with
  | Ok a => k a
  | Throw e => Throw e
  end.

(** [try { ... } catch (e) { ... }] *)
Definition try_catch {A : Type} (r : result A) (handler : exn -> result A)
  : result A :=
  match r with
  | Ok a => Ok a
  | Throw e => handler e
  end.

(** The double quote, for the one literal of the source that holds it. *)
Definition dq : string := String (ascii_of_nat 34) EmptyString.

(** ** Primitive operations of the language *)

(** [!!v] *)
Definition truthy (v : value) : bool :=
  match v with
  | VUndefined | VNull => false
  | VBool b => b
  | VNum n => negb (n =? 0)
  | VStr s => negb (String.eqb s "")
  | VArr _ | VObj _ => true
  end.

(** [v == null], which holds of [null] and [undefined] only. *)
Definition is_nullish (v : value) : bool :=
  match v with
  | VUndefined | VNull => true
  | _ => false
  end.

(** [v === n] for a number literal [n]. *)
Definition strict_eq_num (v : value) (n : Z) : bool :=
  match v with
  | VNum k => k =? n
  | _ => false
  end.

(** [v === s] for a string literal [s]. *)
Definition strict_eq_str (v : value) (s : string) : bool :=
  match v with
  | VStr t => String.eqb t s
  | _ => false
  end.

(** [_.isString(v)] *)
Definition isString (v : value) : bool :=
  match v with
  | VStr _ => true
  | _ => false
  end.

(** [v.k] for a name [k] that is not an array index: a [TypeError] on [null]
    and [undefined], the own entry of an object, [length] of a string or an
    array, [undefined] otherwise. *)
Definition get (v : value) (k : string) : result value :=
  match v with
  | VUndefined | VNull => Throw TypeError
  | VObj m => Ok (default VUndefined (m !! k))
  | VStr s => Ok (if String.eqb k "length" then VNum (Z.of_nat (String.length s))
                  else VUndefined)
  | VArr l => Ok (if String.eqb k "length" then VNum (Z.of_nat (List.length l))
                  else VUndefined)
  | VBool _ | VNum _ => Ok VUndefined
  end.

(** [a || b] *)
Definition js_or (a b : value) : value := if truthy a then a else b.

(** *** Numbers and strings *)

Definition digit (d : Z) : ascii := ascii_of_nat (48 + Z.to_nat d).

Fixpoint digits (fuel : nat) (n : Z) (acc : string) : string :=
  let acc' := String (digit (n mod 10)) acc in
  match fuel with
  | O => acc'
  | S fuel' => if n / 10 =? 0 then acc' else digits fuel' (n / 10) acc'
  end.

(** The decimal numeral of an integer, digit by digit.  A number has no more
    decimal digits than binary ones, which bounds the loop. *)
Definition decimal (n : Z) : string :=
  if n <? 0 then "-" +:+ digits (Z.to_nat (Z.log2 (- n))) (- n) ""
  else digits (Z.to_nat (Z.log2 n)) n "".

Definition digit_value (c : ascii) : option Z :=
  let n := Z.of_nat (nat_of_ascii c) in
  if (48 <=? n) && (n <=? 57) then Some (n - 48) else None.

(** The number that a string of decimal digits writes. *)
Fixpoint number_of_digits (s : string) (acc : Z) : option Z :=
  match s with
  | EmptyString => Some acc
  | String c s' => d ← digit_value c; number_of_digits s' (10 * acc + d)
  end.

(** The integers that a JavaScript number holds exactly, one by one: up to
    2^53 in magnitude.  [String(n)] writes these digit by digit. *)
Definition safe_integer (n : Z) : bool := Z.abs n <=? 9007199254740992.

(** [s.indexOf(c) > 0] *)
Definition indexOf_positive (s c : string) : bool :=
  match String.index 0 c s with
  | Some (S _) => true
  | _ => false
  end.

(** ** Data of the client *)

(** The error slot of a callback: an instance of a kind of [./errors] with
    the arguments of its constructor, an [Error] with its message, a bare
    string, or what [new] builds from a member of the registry object that
    is a constructor of something other than an error kind. *)
Inductive error : Type :=
| ClientError (kind : string) (args : list value)
| Error_ (message : string)
| ErrString (s : string)
| Foreign (member : string).

(** What [this.credentials] holds when it is set. *)
Record Credentials : Type := {
  copayerId : value;
  requestPrivKey : value
}.

(** The fields of an [API] instance that requests read. *)
Record API : Type := {
  baseUrl : string;
  basePath : string;
  timeout : value;
  credentials : option Credentials
}.

(** [newArgs], the descriptor handed to the transport. *)
Record RequestArgs : Type := {
  relUrl : string;
  headers : gmap string value;
  method : string;
  url : string;
  body : gmap string value;
  json : bool;
  withCredentials : bool;
  req_timeout : value
}.

(** The response object of the transport, as far as the callback reads it. *)
Record Response : Type := {
  statusCode : value;
  header : value
}.

(** One invocation [cb(err, data, extra)]; [cb(e)] leaves the last two
    [undefined], and [cb(undefined)] has no error either. *)
Record Callback : Type := {
  cb_err : option error;
  cb_data : value;
  cb_extra : value
}.

Definition cb_error (e : option error) : Callback :=
  {| cb_err := e; cb_data := VUndefined; cb_extra := VUndefined |}.

Definition cb_success (data extra : value) : Callback :=
  {| cb_err := None; cb_data := data; cb_extra := extra |}.

(** What a call of the client does before it returns: it invokes the
    callback, or it hands a request to the transport, which answers later. *)
Inductive effect : Type :=
| Invoke (c : Callback)
| Dispatch (r : RequestArgs).

(** The requests an effect puts on the network. *)
Definition network_calls (e : effect) : list RequestArgs :=
  match e with
  | Invoke _ => []
  | Dispatch r => [r]
  end.

Definition API_VERSION : string := "v1".
Definition BASE_URL : string := "http://localhost:3232/counterparty/api".

(** The body that the callback compares to, [{"error":"read ECONNRESET"}]. *)
Definition ECONNRESET_BODY : string :=
  "{" +:+ dq +:+ "error" +:+ dq +:+ ":" +:+ dq +:+ "read ECONNRESET" +:+ dq +:+ "}".

(** ** Collaborators

    What [lib/api.js] requires from outside itself.

    - The version in [package.json].
    - The signer [API._signRequest], which the file calls and does not
      define.
    - [JSON.parse].
    - The registry object [./errors].  [coded_kinds] are the error kinds it
      defines beyond the three that the file names; [other_members] are the
      other truthy members that a lookup [Errors[k]] finds in it, its own or
      those it inherits ([constructor], [__proto__], [toString], ...), each
      a constructor of something else or no constructor at all.
    - The language's conversions where they depend on floating point:
      [Number_toString n] is [String(n)] for a number beyond the safe
      integers, which is rounded and, from 1e21 on, in exponent form;
      [Number_of_string s] is the integer that [Number(s)] is, if it is one.
    - lodash's [_.random(lower, upper)], a number between the two bounds,
      both included; [draw] is the state of the generator at the call. *)
Inductive other_member : Type :=
| Constructs
| NoConstructor.

Class Collaborators : Type := {
  Package_version : string;
  _signRequest : string -> string -> gmap string value -> value -> value;
  JSON_parse : string -> result value;
  coded_kinds : gset string;
  other_members : gmap string other_member;
  Number_toString : Z -> string;
  Number_of_string : string -> option Z;
  _random : Z -> Z -> Z -> Z;
  _random_between : forall lower upper draw : Z,
    lower <= upper -> lower <= _random lower upper draw <= upper
}.

Section Client.
Context `{!Collaborators}.

(** [Array.prototype.join] with a comma, over the conversion [f] of an
    element: nothing is written for [null] and [undefined]. *)
Definition join_with (f : value -> result string)
  : list value -> result string :=
  fix join (l : list value) : result string :=
    match l with
    | [] => Ok ""
    | x :: l' =>
        e ← match x with
            | VUndefined | VNull => Ok ""
            | _ => f x
            end;
        match l' with
        | [] => Ok e
        | _ :: _ => rest ← join l'; Ok (e +:+ "," +:+ rest)
        end
    end.

(** [String(v)], and the string that [+] and a property key make of [v].
    A safe integer is written digit by digit.  An array joins its elements.
    An object without a [toString] entry of its own is [[object Object]];
    with one, which no value here can call, the conversion finds no
    primitive and throws a [TypeError], whether [valueOf] is its own or
    inherited. *)
Fixpoint to_string (v : value) : result string :=
  match v with
  | VUndefined => Ok "undefined"
  | VNull => Ok "null"
  | VBool true => Ok "true"
  | VBool false => Ok "false"
  | VNum n => Ok (if safe_integer n then decimal n else Number_toString n)
  | VStr s => Ok s
  | VArr l => join_with to_string l
  | VObj m =>
      if bool_decide (is_Some (m !! "toString")) then Throw TypeError
      else Ok "[object Object]"
  end.

(** [new Error(v)]: the message is [String(v)], and empty for [undefined]. *)
Definition new_Error (v : value) : result error :=
  match v with
  | VUndefined => Ok (Error_ "")
  | _ => message ← to_string v; Ok (Error_ message)
  end.

(** [v == n] for a number literal [n]: numbers compare as they are, booleans
    and strings after [Number], arrays and objects after the conversion to
    a string and [Number]; [null] and [undefined] equal no number. *)
Definition loose_eq_num (v : value) (n : Z) : result bool :=
  match v with
  | VNum k => Ok (k =? n)
  | VBool b => Ok ((if b then 1 else 0) =? n)
  | VStr s =>
      Ok (match Number_of_string s with Some k => k =? n | None => false end)
  | VArr _ | VObj _ =>
      s ← to_string v;
      Ok (match Number_of_string s with Some k => k =? n | None => false end)
  | VUndefined | VNull => Ok false
  end.

(** Modelled from the spec: the module [./errors] is missing.  It is the
    registry that maps a code to the constructor of an error kind; the kinds
    that [lib/api.js] constructs by name are in it, and [coded_kinds] are the
    others. *)
Definition Errors : gset string :=
  {[ "CONNECTION_ERROR"; "NOT_FOUND"; "ECONNRESET_ERROR" ]} ∪ coded_kinds.

(** [new Errors[k](args)], a [TypeError] when the registry has no [k]. *)
Definition new_Errors (k : string) (args : list value) : result error :=
  if bool_decide (k ∈ Errors) then Ok (ClientError k args) else Throw TypeError.

(** [API._parseError]; [None] is the [undefined] of its bare [return].  The
    name [k] under which [Errors[body.code]] looks is the code as a string;
    every later conversion of the code gives the same string or throws the
    same way.  An error kind is found first, then the other members of the
    registry object. *)
Definition _parseError (body : value) : result (option error) :=
  if negb (truthy body) then Ok None
  else
    body ← (match body with
            | VStr s =>
                try_catch (JSON_parse s)
                  (fun _ => Ok (VObj {[ "error" := body ]}))
            | _ => Ok body
            end);
    code ← get body "code";
    if truthy code then
      k ← to_string code;
      if bool_decide (k ∈ Errors) then
        e ← new_Errors k []; Ok (Some e)
      else
        match other_members !! k with
        | Some Constructs => Ok (Some (Foreign k))
        | Some NoConstructor => Throw TypeError
        | None => e ← new_Error code; Ok (Some e)
        end
    else
      message ← get body "message";
      e ← new_Error (js_or message body); Ok (Some e).

(** [API.prototype._getHeaders].  The call may delete an entry of [args],
    which the caller goes on to use: the mapping is returned with the
    headers. *)
Definition _getHeaders (self : API) (method url : string)
    (args : gmap string value) : gmap string value * gmap string value :=
  let headers : gmap string value :=
    {[ "x-client-version" := VStr ("bwc-" +:+ Package_version) ]} in
  match credentials self with
  | Some c =>
      let key := js_or (default VUndefined (args !! "_requestPrivKey"))
                       (requestPrivKey c) in
      let '(reqSignature, args) :=
        if truthy key then
          let args := delete "_requestPrivKey" args in
          (_signRequest method url args key, args)
        else (VUndefined, args) in
      let headers := <[ "x-identity" := copayerId c ]> headers in
      let headers := <[ "x-signature" := reqSignature ]> headers in
      (headers, args)
  | None => (headers, args)
  end.

(** The first half of [API.prototype._doRequest]: the descriptor that goes to
    [this.request].  [body: args] is read after [_getHeaders] has run on the
    same object. *)
Definition _doRequest (self : API) (method url : string)
    (args : gmap string value) : RequestArgs :=
  let absUrl := baseUrl self +:+ "/" +:+ API_VERSION +:+ url in
  let '(headers, args) := _getHeaders self method url args in
  {| relUrl := basePath self +:+ url;
     headers := headers;
     method := method;
     url := absUrl;
     body := args;
     json := true;
     withCredentials := false;
     req_timeout := timeout self |}.

(** The second half: the function that [this.request] calls back with the
    response and its body.  [Ok c] is the one invocation of [cb] it makes;
    [Throw] is an exception that leaves it before any.  Of what the code
    logs, the line ['HTTP Error:' + res.statusCode] is kept for the
    conversion of the status to a string, which can throw.  Reading
    [body.errors] and [body.message] throws for the same bodies, and neither
    has another effect, so both are read before the test on them. *)
Definition on_response (res : option Response) (body : value)
  : result Callback :=
  match res with
  | None => e ← new_Errors "CONNECTION_ERROR" []; Ok (cb_error (Some e))
  | Some res =>
      if negb (strict_eq_num (statusCode res) 200) then
        if strict_eq_num (statusCode res) 404 then
          e ← new_Errors "NOT_FOUND" []; Ok (cb_error (Some e))
        else if negb (truthy (statusCode res)) then
          e ← new_Errors "CONNECTION_ERROR" []; Ok (cb_error (Some e))
        else
          _ ← to_string (statusCode res);
          if negb (truthy body) then
            e ← new_Error (statusCode res); Ok (cb_error (Some e))
          else
            e ← _parseError body; Ok (cb_error e)
      else if strict_eq_str body ECONNRESET_BODY then
        parsed ← JSON_parse ECONNRESET_BODY;
        e ← new_Errors "ECONNRESET_ERROR" [parsed];
        Ok (cb_error (Some e))
      else
        errors ← get body "errors";
        message ← get body "message";
        if negb (is_nullish errors) && negb (is_nullish message) then
          e ← new_Error message; Ok (cb_error (Some e))
        else Ok (cb_success body (header res))
  end.

Definition _doPostRequest (self : API) (url : string)
    (args : gmap string value) : RequestArgs :=
  _doRequest self "post" url args.

Definition _doPutRequest (self : API) (url : string)
    (args : gmap string value) : RequestArgs :=
  _doRequest self "put" url args.

(** [API.prototype._doGetRequest]; [draw] is the state of the random
    generator when the call is made.  The number lies in the safe integers,
    where [+] writes it digit by digit. *)
Definition _doGetRequest (self : API) (draw : Z) (url : string) : RequestArgs :=
  let url := url +:+ (if indexOf_positive url "?" then "&" else "?") in
  let url := url +:+ "r=" +:+ decimal (_random 10000 99999 draw) in
  _doRequest self "get" url ∅.

Definition _doDeleteRequest (self : API) (url : string) : RequestArgs :=
  _doRequest self "delete" url ∅.

(** ** The operations *)

Definition getVersion (self : API) (draw : Z) : result effect :=
  Ok (Dispatch (_doGetRequest self draw "/version")).

Definition getBalances (self : API) (draw : Z) (address : value)
  : result effect :=
  a ← to_string address;
  Ok (Dispatch (_doGetRequest self draw ("/balances/" +:+ a))).

(** [x == null || x.length == 0] *)
Definition null_or_empty (x : value) : result bool :=
  if is_nullish x then Ok true
  else len ← get x "length"; loose_eq_num len 0.

Definition getTransactions (self : API) (address txids : value)
  : result effect :=
  empty ← null_or_empty txids;
  if empty : bool then Ok (Invoke (cb_success (VArr []) VUndefined))
  else
    let args : gmap string value :=
      <[ "txids" := txids ]> {[ "address" := address ]} in
    Ok (Dispatch (_doPostRequest self "/transactions" args)).

Definition getBvamInfo (self : API) (assets : value) : result effect :=
  empty ← null_or_empty assets;
  if empty : bool then
    Ok (Invoke (cb_error (Some (ErrString "Asset names were invalid"))))
  else
    let args : gmap string value := {[ "assets" := assets ]} in
    Ok (Dispatch (_doPostRequest self "/bvam/info" args)).

Definition addBvamData (self : API) (bvamData : value) : result effect :=
  if is_nullish bvamData then
    Ok (Invoke (cb_error (Some (ErrString "bvam data is required"))))
  else
    let args : gmap string value := {[ "bvam" := bvamData ]} in
    Ok (Dispatch (_doPostRequest self "/bvam" args)).

(** The public operations of the client, with their arguments. *)
Inductive operation : Type :=
| OpGetVersion
| OpGetBalances (address : value)
| OpGetTransactions (address txids : value)
| OpGetBvamInfo (assets : value)
| OpAddBvamData (bvamData : value).

Definition perform (self : API) (draw : Z) (op : operation) : result effect :=
  match op with
  | OpGetVersion => getVersion self draw
  | OpGetBalances address => getBalances self draw address
  | OpGetTransactions address txids => getTransactions self address txids
  | OpGetBvamInfo assets => getBvamInfo self assets
  | OpAddBvamData bvamData => addBvamData self bvamData
  end.

(** An operation from the call to the callback, against a transport that
    answers a request with a response, or none, and a body. *)
Definition run (self : API) (transport : RequestArgs -> option Response * value)
    (draw : Z) (op : operation) : result Callback :=
  e ← perform self draw op;
  match e with
  | Invoke c => Ok c
  | Dispatch r => let '(res, body) := transport r in on_response res body
  end.

(** *** The classification as the specification words it

    Section 4.3, step 2c: a string body is parsed, and on failure the raw
    string is the message; a [code] of a known kind gives that kind, another
    [code] a generic error with the code as message; without [code], a
    generic error from [message], or from the whole body without [message]. *)
Definition spec_field (v : value) (k : string) : option value :=
  match v with
  | VObj m => m !! k
  | _ => None
  end.

Definition spec_error_of_structure (v : value) : result error :=
  match spec_field v "code" with
  | Some code =>
      k ← to_string code;
      if bool_decide (k ∈ Errors) then Ok (ClientError k []) else Ok (Error_ k)
  | None =>
      match spec_field v "message" with
      | Some message => new_Error message
      | None => new_Error v
      end
  end.

Definition spec_error_of_body (body : value) : result error :=
  match body with
  | VStr s =>
      match JSON_parse s with
      | Ok v => spec_error_of_structure v
      | Throw _ => Ok (Error_ s)
      end
  | _ => spec_error_of_structure body
  end.

(** What the specification has the callback do with the body of a response
    whose status is truthy and neither 200 nor 404. *)
Definition spec_on_error_status (body : value) : result Callback :=
  e ← spec_error_of_body body; Ok (cb_error (Some e)).

(** The structure that [_parseError] reads [code] and [message] from: the
    body itself, or what a string body parses to. *)
Definition structure_of (body v : value) : Prop :=
  (isString body = false /\ v = body)
  \/ (exists s, body = VStr s /\ JSON_parse s = Ok v).

(** The second half of [_parseError], from [if (body.code)] on, on the
    structure it has by then. *)
Definition error_of_structure (v : value) : result (option error) :=
  code ← get v "code";
  if truthy code then
    k ← to_string code;
    if bool_decide (k ∈ Errors) then Ok (Some (ClientError k []))
    else
      match other_members !! k with
      | Some Constructs => Ok (Some (Foreign k))
      | Some NoConstructor => Throw TypeError
      | None => Ok (Some (Error_ k))
      end
  else
    message ← get v "message";
    e ← new_Error (js_or message v); Ok (Some e).

(** [v] has no string form: the conversion throws. *)
Definition unstringable (v : value) : Prop := to_string v = Throw TypeError.

(** The structures on which the second half of [_parseError] throws: [null]
    and [undefined], whose [code] cannot be read; a truthy [code] that has
    no string form, or that names a member of the registry object which is
    no constructor; and, without a truthy [code], a message, or else a whole
    structure, that has no string form. *)
Definition structure_faults (v : value) : Prop :=
  is_nullish v = true
  \/ exists code,
       get v "code" = Ok code
       /\ ((truthy code = true
            /\ (unstringable code
                \/ exists k, to_string code = Ok k /\ (k ∉ Errors)
                             /\ other_members !! k = Some NoConstructor))
           \/ (truthy code = false
               /\ exists message,
                    get v "message" = Ok message
                    /\ unstringable (js_or message v))).

(** A status for which the callback turns to the body: truthy, and neither
    200 nor 404. *)
Definition error_status (r : Response) : Prop :=
  truthy (statusCode r) = true
  /\ strict_eq_num (statusCode r) 200 = false
  /\ strict_eq_num (statusCode r) 404 = false.

End Client.

(** ** Instances for the examples *)

(** A signer that only records what it was given. *)
Definition example_sign (method url : string) (args : gmap string value)
    (key : value) : value :=
  VArr [VStr method; VStr url; VObj args; key].

(** [{"code":c}] as a JSON text. *)
Definition code_body (c : string) : string :=
  "{" +:+ dq +:+ "code" +:+ dq +:+ ":" +:+ dq +:+ c +:+ dq +:+ "}".

(** A reader of the JSON texts that the examples use; it rejects every other
    text, so that it agrees with [JSON.parse] on those texts and on texts
    that are not JSON. *)
Definition example_parse (s : string) : result value :=
  if String.eqb s ECONNRESET_BODY then
    Ok (VObj {[ "error" := VStr "read ECONNRESET" ]})
  else if String.eqb s (code_body "NOT_AUTHORIZED") then
    Ok (VObj {[ "code" := VStr "NOT_AUTHORIZED" ]})
  else if String.eqb s (code_body "UNKNOWN_X") then
    Ok (VObj {[ "code" := VStr "UNKNOWN_X" ]})
  else if String.eqb s "null" then Ok VNull
  else Throw SyntaxError.

(** The members that a plain object inherits, as [./errors] does when it
    exports one: its constructor builds an empty object, the others are no
    constructors. *)
Definition example_members : gmap string other_member :=
  list_to_map
    [ ("constructor", Constructs); ("__proto__", NoConstructor);
      ("toString", NoConstructor); ("toLocaleString", NoConstructor);
      ("valueOf", NoConstructor); ("hasOwnProperty", NoConstructor);
      ("isPrototypeOf", NoConstructor);
      ("propertyIsEnumerable", NoConstructor);
      ("__defineGetter__", NoConstructor); ("__defineSetter__", NoConstructor);
      ("__lookupGetter__", NoConstructor); ("__lookupSetter__", NoConstructor) ].

(** [Number(s)] on the empty string and on plain decimal numerals, signed or
    not, which are the strings of the examples; every other string is left
    without a number. *)
Definition example_Number (s : string) : option Z :=
  match s with
  | EmptyString => Some 0
  | String c s' =>
      if Ascii.eqb c "-" then
        if String.eqb s' "" then None else Z.opp <$> number_of_digits s' 0
      else if Ascii.eqb c "+" then
        if String.eqb s' "" then None else number_of_digits s' 0
      else number_of_digits s 0
  end.

(** A generator that turns its state into a number between the bounds. *)
Definition example_random (lower upper draw : Z) : Z :=
  lower + (draw - lower) mod (upper - lower + 1).

Definition example_collaborators : Collaborators := {|
  Package_version := "1.0.0";
  _signRequest := example_sign;
  JSON_parse := example_parse;
  coded_kinds := {[ "NOT_AUTHORIZED" ]};
  other_members := example_members;
  Number_toString := decimal;
  Number_of_string := example_Number;
  _random := example_random;
  _random_between := ltac:(
    intros lower upper draw Hle; unfold example_random;
    pose proof (Z.mod_pos_bound (draw - lower) (upper - lower + 1)); lia)
|}.

Definition example_credentials : Credentials :=
  {| copayerId := VStr "copayer-1"; requestPrivKey := VStr "credential-key" |}.

Definition keyless_credentials : Credentials :=
  {| copayerId := VStr "copayer-1"; requestPrivKey := VUndefined |}.

Definition example_client (c : option Credentials) : API :=
  {| baseUrl := BASE_URL;
     basePath := "/counterparty/api";
     timeout := VNum 50000;
     credentials := c |}.

Definition response (status : value) : Response :=
  {| statusCode := status;
     header := VObj {[ "content-type" := VStr "application/json" ]} |}.

(** ** The constructor

    [new API(opts)], as far as the requests read the instance: the base URL,
    the base path and the timeout; [verbose], the log level, the transport
    and [baseHost] are set and read by nothing modelled here.  No statement
    of the file assigns [this.credentials]: the instance starts without.
    [url.parse] is outside the file: it throws a [TypeError] for what is not
    a string, and [parsed_path] is the [path] of what it returns, [null] or a
    string, kept the way [this.basePath + url] reads it, [null] as the four
    letters. *)
Definition new_API (parsed_path : string -> value) (opts : value) : result API :=
  let opts := js_or opts (VObj ∅) in
  opts_baseUrl ← get opts "baseUrl";
  opts_timeout ← get opts "timeout";
  match js_or opts_baseUrl (VStr BASE_URL) with
  | VStr s =>
      Ok {| baseUrl := s;
            basePath := match parsed_path s with VStr p => p | _ => "null" end;
            timeout := js_or opts_timeout (VNum 50000);
            credentials := None |}
  | _ => Throw TypeError
  end.

(** The path of every URL of the examples. *)
Definition example_path (s : string) : value := VStr "/counterparty/api".

(** The character [c] occurs in [s]. *)
Definition occurs (c : ascii) (s : string) : Prop :=
  In c (list_ascii_of_string s).

(** * Properties *)

(** ** The registry *)

Lemma CONNECTION_ERROR_registered `{!Collaborators} :
  "CONNECTION_ERROR" ∈ Errors.
Proof. unfold Errors. set_solver. Qed.

Lemma NOT_FOUND_registered `{!Collaborators} : "NOT_FOUND" ∈ Errors.
Proof. unfold Errors. set_solver. Qed.

Lemma ECONNRESET_ERROR_registered `{!Collaborators} :
  "ECONNRESET_ERROR" ∈ Errors.
Proof. unfold Errors. set_solver. Qed.

Lemma new_Errors_registered `{!Collaborators} (k : string) (args : list value) :
  k ∈ Errors -> new_Errors k args = Ok (ClientError k args).
Proof. intros Hk. unfold new_Errors. by rewrite bool_decide_eq_true_2. Qed.

Lemma new_Errors_missing `{!Collaborators} (k : string) (args : list value) :
  k ∉ Errors -> new_Errors k args = Throw TypeError.
Proof. intros Hk. unfold new_Errors. by rewrite bool_decide_eq_false_2. Qed.

(** ** Truthiness and comparison *)

Lemma falsy_not_200 (v : value) : truthy v = false -> strict_eq_num v 200 = false.
Proof.
  destruct v as [| | |n| | |]; simpl; try done.
  intros Hn. apply negb_false_iff in Hn. lia.
Qed.

Lemma falsy_not_404 (v : value) : truthy v = false -> strict_eq_num v 404 = false.
Proof.
  destruct v as [| | |n| | |]; simpl; try done.
  intros Hn. apply negb_false_iff in Hn. lia.
Qed.

Lemma strict_eq_num_true (v : value) (n : Z) :
  strict_eq_num v n = true <-> v = VNum n.
Proof.
  destruct v; simpl; try (split; [discriminate | discriminate]).
  rewrite Z.eqb_eq. split; [by intros -> | by intros [= ->]].
Qed.

Lemma strict_eq_num_false (v : value) (n : Z) :
  strict_eq_num v n = false <-> v ≠ VNum n.
Proof.
  rewrite <- strict_eq_num_true. destruct (strict_eq_num v n); split; congruence.
Qed.

Lemma strict_eq_str_true (v : value) (s : string) :
  strict_eq_str v s = true <-> v = VStr s.
Proof.
  destruct v; simpl; try (split; [discriminate | discriminate]).
  rewrite String.eqb_eq. split; [by intros -> | by intros [= ->]].
Qed.

Lemma truthy_not_nullish (v : value) : truthy v = true -> is_nullish v = false.
Proof. by destruct v. Qed.

Lemma get_Ok (v : value) (k : string) :
  is_nullish v = false -> exists x, get v k = Ok x.
Proof. destruct v; simpl; try done; eauto. Qed.

Lemma get_Throw (v : value) (k : string) :
  is_nullish v = true -> get v k = Throw TypeError.
Proof. by destruct v. Qed.

(** ** Classification of the responses that carry no usable status *)

(** C4: without a response object the callback gets CONNECTION_ERROR, whatever
    the body and before any status code is read; a response whose status code
    is absent or falsy gives CONNECTION_ERROR too; a response with status 404
    gives NOT_FOUND, whatever the body. *)
Theorem connection_error_and_not_found `{!Collaborators} :
  (forall body : value,
      on_response None body
      = Ok (cb_error (Some (ClientError "CONNECTION_ERROR" []))))
  /\ (forall (res : Response) (body : value),
      truthy (statusCode res) = false ->
      on_response (Some res) body
      = Ok (cb_error (Some (ClientError "CONNECTION_ERROR" []))))
  /\ (forall (res : Response) (body : value),
      statusCode res = VNum 404 ->
      on_response (Some res) body
      = Ok (cb_error (Some (ClientError "NOT_FOUND" [])))).
Proof.
  split; [|split].
  - intros body. unfold on_response.
    by rewrite (new_Errors_registered _ _ CONNECTION_ERROR_registered).
  - intros res body Hfalsy. unfold on_response.
    rewrite (falsy_not_200 _ Hfalsy), (falsy_not_404 _ Hfalsy), Hfalsy. simpl.
    by rewrite (new_Errors_registered _ _ CONNECTION_ERROR_registered).
  - intros res body Hstatus. unfold on_response. rewrite Hstatus. simpl.
    by rewrite (new_Errors_registered _ _ NOT_FOUND_registered).
Qed.

Lemma connection_error_and_not_found_witness :
  on_response (H := example_collaborators) (Some (response VUndefined))
    (VStr "ignored")
  = Ok (cb_error (Some (ClientError "CONNECTION_ERROR" [])))
  /\ on_response (H := example_collaborators) (Some (response (VNum 404)))
       (VObj {[ "code" := VStr "NOT_AUTHORIZED" ]})
     = Ok (cb_error (Some (ClientError "NOT_FOUND" []))).
Proof.
  destruct (connection_error_and_not_found (H := example_collaborators))
    as (_ & Hfalsy & H404).
  split.
  - apply Hfalsy. reflexivity.
  - apply H404. reflexivity.
Defined.

(** ** Header construction *)

Lemma js_or_truthy_l (a b : value) : truthy a = true -> js_or a b = a.
Proof. unfold js_or. by intros ->. Qed.

Lemma js_or_falsy_l (a b : value) : truthy a = false -> js_or a b = b.
Proof. unfold js_or. by intros ->. Qed.

Lemma _getHeaders_without_credentials `{!Collaborators} (self : API)
    (m u : string) (args : gmap string value) :
  credentials self = None ->
  _getHeaders self m u args
  = ({[ "x-client-version" := VStr ("bwc-" +:+ Package_version) ]}, args).
Proof. intros Hc. unfold _getHeaders. by rewrite Hc. Qed.

Lemma _getHeaders_signed `{!Collaborators} (self : API) (c : Credentials)
    (m u : string) (args : gmap string value) (key : value) :
  credentials self = Some c ->
  js_or (default VUndefined (args !! "_requestPrivKey")) (requestPrivKey c)
  = key ->
  truthy key = true ->
  _getHeaders self m u args
  = (<[ "x-signature" :=
          _signRequest m u (delete "_requestPrivKey" args) key ]>
       (<[ "x-identity" := copayerId c ]>
          {[ "x-client-version" := VStr ("bwc-" +:+ Package_version) ]}),
     delete "_requestPrivKey" args).
Proof.
  intros Hc Hkey Htruthy. unfold _getHeaders. by rewrite Hc, Hkey, Htruthy.
Qed.

Lemma _getHeaders_unsigned `{!Collaborators} (self : API) (c : Credentials)
    (m u : string) (args : gmap string value) :
  credentials self = Some c ->
  truthy (js_or (default VUndefined (args !! "_requestPrivKey"))
                (requestPrivKey c)) = false ->
  _getHeaders self m u args
  = (<[ "x-signature" := VUndefined ]>
       (<[ "x-identity" := copayerId c ]>
          {[ "x-client-version" := VStr ("bwc-" +:+ Package_version) ]}),
     args).
Proof. intros Hc Hkey. unfold _getHeaders. by rewrite Hc, Hkey. Qed.

Lemma _doRequest_fields `{!Collaborators} (self : API) (m u : string)
    (args : gmap string value) :
  let r := _doRequest self m u args in
  headers r = (_getHeaders self m u args).1
  /\ body r = (_getHeaders self m u args).2
  /\ method r = m
  /\ url r = baseUrl self +:+ "/" +:+ API_VERSION +:+ u.
Proof. unfold _doRequest. by destruct (_getHeaders self m u args). Qed.

(** C2: with credentials attached and a truthy signing key, the key taken
    from [_requestPrivKey] of the body mapping when that is truthy and from
    the credentials otherwise, [_getHeaders] returns headers in which
    [x-identity] is the copayer id of the credentials and [x-signature] is
    what the signer computes from the method, the path, the body mapping
    without [_requestPrivKey], and that key. *)
Theorem signing_key_gives_signature `{!Collaborators} (self : API)
    (c : Credentials) (m u : string) (args : gmap string value) :
  credentials self = Some c ->
  let override := default VUndefined (args !! "_requestPrivKey") in
  let key := if truthy override then override else requestPrivKey c in
  truthy key = true ->
  let h := (_getHeaders self m u args).1 in
  h !! "x-identity" = Some (copayerId c)
  /\ h !! "x-signature"
     = Some (_signRequest m u (delete "_requestPrivKey" args) key)
  /\ headers (_doRequest self m u args) = h.
Proof.
  intros Hc override key Hkey h. subst h.
  rewrite (_getHeaders_signed self c m u args key Hc eq_refl Hkey).
  simpl. split; [|split].
  - by rewrite lookup_insert_ne, lookup_insert_eq.
  - by rewrite lookup_insert_eq.
  - destruct (_doRequest_fields self m u args) as (-> & _).
    by rewrite (_getHeaders_signed self c m u args key Hc eq_refl Hkey).
Qed.

Lemma signing_key_gives_signature_witness :
  let self := example_client (Some example_credentials) in
  let args : gmap string value :=
    <[ "_requestPrivKey" := VStr "override-key" ]>
      {[ "assets" := VArr [VStr "A"] ]} in
  let h :=
    (_getHeaders (H := example_collaborators) self "post" "/bvam/info" args).1 in
  h !! "x-identity" = Some (VStr "copayer-1")
  /\ h !! "x-signature"
     = Some (example_sign "post" "/bvam/info" {[ "assets" := VArr [VStr "A"] ]}
               (VStr "override-key")).
Proof.
  intros self args h.
  destruct (signing_key_gives_signature (H := example_collaborators) self
              example_credentials "post" "/bvam/info" args eq_refl eq_refl)
    as (Hid & Hsig & _).
  split; [exact Hid|].
  etrans; [exact Hsig|]. vm_compute. reflexivity.
Defined.

(** C10: with credentials attached, the headers of every request that
    [_doRequest] builds carry [x-identity] with the copayer id of the
    credentials, whether a signing key is found or not. *)
Theorem identity_header_always_set `{!Collaborators} (self : API)
    (c : Credentials) (m u : string) (args : gmap string value) :
  credentials self = Some c ->
  headers (_doRequest self m u args) !! "x-identity" = Some (copayerId c).
Proof.
  intros Hc.
  destruct (_doRequest_fields self m u args) as (-> & _).
  destruct (truthy (js_or (default VUndefined (args !! "_requestPrivKey"))
                          (requestPrivKey c))) eqn:Hkey.
  - rewrite (_getHeaders_signed self c m u args _ Hc eq_refl Hkey). simpl.
    by rewrite lookup_insert_ne, lookup_insert_eq.
  - rewrite (_getHeaders_unsigned self c m u args Hc Hkey). simpl.
    by rewrite lookup_insert_ne, lookup_insert_eq.
Qed.

Lemma identity_header_always_set_witness :
  headers (_doRequest (H := example_collaborators)
             (example_client (Some keyless_credentials)) "get" "/version?r=12345" ∅)
    !! "x-identity"
  = Some (VStr "copayer-1").
Proof.
  apply (identity_header_always_set (H := example_collaborators)
           (example_client (Some keyless_credentials)) keyless_credentials).
  reflexivity.
Defined.

(** C7, as the claim has it, fails: with credentials that hold no key and a
    body mapping without [_requestPrivKey], the returned headers do have an
    [x-signature] entry. *)
Lemma signature_entry_present_without_key :
  ~ ((_getHeaders (H := example_collaborators)
        (example_client (Some keyless_credentials)) "post" "/bvam" ∅).1
       !! "x-signature" = None).
Proof. vm_compute. discriminate. Qed.

(** C7, amended: with credentials attached and no truthy signing key, neither
    under [_requestPrivKey] of the body mapping nor in the credentials,
    [_getHeaders] returns, without a fault, headers whose [x-signature] entry
    is present and holds [undefined]; no signature is computed and the body
    mapping is left as it was. *)
Theorem no_key_leaves_signature_undefined `{!Collaborators} (self : API)
    (c : Credentials) (m u : string) (args : gmap string value) :
  credentials self = Some c ->
  truthy (default VUndefined (args !! "_requestPrivKey")) = false ->
  truthy (requestPrivKey c) = false ->
  let '(h, args') := _getHeaders self m u args in
  h !! "x-signature" = Some VUndefined
  /\ h !! "x-identity" = Some (copayerId c)
  /\ h !! "x-client-version" = Some (VStr ("bwc-" +:+ Package_version))
  /\ args' = args.
Proof.
  intros Hc Hoverride Hcred.
  rewrite (_getHeaders_unsigned self c m u args Hc).
  - split; [|split; [|split]].
    + by rewrite lookup_insert_eq.
    + by rewrite lookup_insert_ne, lookup_insert_eq.
    + by rewrite !lookup_insert_ne, lookup_singleton_eq.
    + reflexivity.
  - by rewrite (js_or_falsy_l _ _ Hoverride).
Qed.

Lemma no_key_leaves_signature_undefined_witness :
  let '(h, args') :=
    _getHeaders (H := example_collaborators)
      (example_client (Some keyless_credentials)) "post" "/bvam"
      {[ "bvam" := VStr "data" ]} in
  h !! "x-signature" = Some VUndefined
  /\ h !! "x-identity" = Some (VStr "copayer-1")
  /\ h !! "x-client-version" = Some (VStr "bwc-1.0.0")
  /\ args' = {[ "bvam" := VStr "data" ]}.
Proof.
  apply (no_key_leaves_signature_undefined (H := example_collaborators)
           (example_client (Some keyless_credentials)) keyless_credentials
           "post" "/bvam" {[ "bvam" := VStr "data" ]});
    reflexivity.
Defined.

(** ** The body that is transmitted *)

(** C6, as the claim has it, fails: on a client without credentials the
    override key stays in the body of the request that is dispatched. *)
Lemma override_key_sent_without_credentials :
  body (_doPostRequest (H := example_collaborators) (example_client None)
          "/bvam/info"
          (<[ "_requestPrivKey" := VStr "override-key" ]>
             {[ "assets" := VArr [VStr "A"] ]}))
    !! "_requestPrivKey"
  = Some (VStr "override-key").
Proof. vm_compute. reflexivity. Qed.

(** C6, amended: when credentials are attached and the body mapping holds a
    truthy override key under [_requestPrivKey], the body of the dispatched
    request is the body mapping without that entry, so the key is not
    transmitted and every other entry is; when no credentials are attached
    the body mapping is transmitted as it is. *)
Theorem override_key_stripped `{!Collaborators} (self : API) (m u : string)
    (args : gmap string value) :
  (forall (c : Credentials) (k : value),
      credentials self = Some c ->
      args !! "_requestPrivKey" = Some k ->
      truthy k = true ->
      body (_doRequest self m u args) = delete "_requestPrivKey" args
      /\ body (_doRequest self m u args) !! "_requestPrivKey" = None)
  /\ (credentials self = None -> body (_doRequest self m u args) = args).
Proof.
  destruct (_doRequest_fields self m u args) as (_ & Hbody & _).
  split.
  - intros c k Hc Hk Htruthy. rewrite Hbody.
    rewrite (_getHeaders_signed self c m u args k Hc); simpl.
    + split; [done | apply lookup_delete_eq].
    + rewrite Hk. simpl. by apply js_or_truthy_l.
    + done.
  - intros Hc. rewrite Hbody.
    by rewrite (_getHeaders_without_credentials self m u args Hc).
Qed.

Lemma override_key_stripped_witness :
  let args : gmap string value :=
    <[ "_requestPrivKey" := VStr "override-key" ]>
      {[ "assets" := VArr [VStr "A"] ]} in
  body (_doRequest (H := example_collaborators)
          (example_client (Some keyless_credentials)) "post" "/bvam/info" args)
  = delete "_requestPrivKey" args
  /\ body (_doRequest (H := example_collaborators)
             (example_client None) "post" "/bvam/info" args)
     = args.
Proof.
  intros args. split.
  - destruct (override_key_stripped (H := example_collaborators)
                (example_client (Some keyless_credentials)) "post" "/bvam/info" args)
      as (Hstrip & _).
    apply (Hstrip keyless_credentials (VStr "override-key")); reflexivity.
  - destruct (override_key_stripped (H := example_collaborators)
                (example_client None) "post" "/bvam/info" args)
      as (_ & Hkeep).
    apply Hkeep. reflexivity.
Defined.

(** ** The URL of a request *)

(** Division and remainder by a numeral, for [lia]. *)
#[local] Ltac Zify.zify_post_hook ::= Z.to_euclidean_division_equations.

Lemma append_assoc (s t u : string) : (s +:+ t) +:+ u = s +:+ t +:+ u.
Proof.
  induction s as [|c s IH]; [done|].
  change (String c ((s +:+ t) +:+ u) = String c (s +:+ t +:+ u)).
  by rewrite IH.
Qed.

Lemma digits_S (fuel : nat) (n : Z) (acc : string) :
  digits (S fuel) n acc
  = if n / 10 =? 0 then String (digit (n mod 10)) acc
    else digits fuel (n / 10) (String (digit (n mod 10)) acc).
Proof. reflexivity. Qed.

Lemma digits_last (fuel : nat) (n : Z) (acc : string) :
  0 <= n <= 9 -> digits fuel n acc = String (digit (n mod 10)) acc.
Proof.
  intros Hn. destruct fuel as [|fuel]; [reflexivity|].
  rewrite digits_S. replace (n / 10) with 0 by lia. reflexivity.
Qed.

Ltac digit_cases d :=
  let H := fresh in
  assert (H : d = 0 \/ d = 1 \/ d = 2 \/ d = 3 \/ d = 4 \/ d = 5 \/ d = 6
              \/ d = 7 \/ d = 8 \/ d = 9) by lia;
  repeat (destruct H as [-> | H]); [..| subst d].

Lemma digit_value_digit (d : Z) : 0 <= d <= 9 -> digit_value (digit d) = Some d.
Proof. intros Hd. digit_cases d; reflexivity. Qed.

Lemma digit_not_sign (d : Z) :
  0 <= d <= 9 ->
  Ascii.eqb (digit d) "-" = false /\ Ascii.eqb (digit d) "+" = false.
Proof. intros Hd. digit_cases d; split; reflexivity. Qed.

(** The numeral of a number of five digits, digit by digit. *)
Lemma decimal_five_digits (n : Z) :
  10000 <= n <= 99999 ->
  decimal n
  = String (digit (n / 10000))
      (String (digit (n / 1000 mod 10))
         (String (digit (n / 100 mod 10))
            (String (digit (n / 10 mod 10))
               (String (digit (n mod 10)) EmptyString)))).
Proof.
  intros Hn. unfold decimal.
  replace (n <? 0) with false by lia.
  assert (Hlog : 13 <= Z.log2 n).
  { change 13 with (Z.log2 10000). apply Z.log2_le_mono. lia. }
  destruct (Z.to_nat (Z.log2 n)) as [|[|[|[|fuel]]]] eqn:Hfuel; try lia.
  rewrite digits_S. replace (n / 10 =? 0) with false by lia.
  rewrite digits_S. replace (n / 10 / 10 =? 0) with false by lia.
  rewrite digits_S. replace (n / 10 / 10 / 10 =? 0) with false by lia.
  rewrite digits_S. replace (n / 10 / 10 / 10 / 10 =? 0) with false by lia.
  rewrite digits_last by lia.
  replace (n / 10 / 10 / 10 / 10 mod 10) with (n / 10000) by lia.
  replace (n / 10 / 10 / 10 mod 10) with (n / 1000 mod 10) by lia.
  replace (n / 10 / 10 mod 10) with (n / 100 mod 10) by lia.
  reflexivity.
Qed.

Lemma decimal_five_digits_length (n : Z) :
  10000 <= n <= 99999 -> String.length (decimal n) = 5%nat.
Proof. intros Hn. by rewrite (decimal_five_digits n Hn). Qed.

Lemma decimal_five_digits_value (n : Z) :
  10000 <= n <= 99999 -> number_of_digits (decimal n) 0 = Some n.
Proof.
  intros Hn. rewrite (decimal_five_digits n Hn).
  cbn [number_of_digits].
  rewrite !digit_value_digit by lia. cbn [mbind option_bind].
  f_equal. lia.
Qed.

Lemma _doRequest_url `{!Collaborators} (self : API) (m u : string)
    (args : gmap string value) :
  url (_doRequest self m u args) = baseUrl self +:+ "/v1" +:+ u.
Proof. by destruct (_doRequest_fields self m u args) as (_ & _ & _ & ->). Qed.

Lemma _doRequest_method `{!Collaborators} (self : API) (m u : string)
    (args : gmap string value) :
  method (_doRequest self m u args) = m.
Proof. by destruct (_doRequest_fields self m u args) as (_ & _ & -> & _). Qed.

Lemma _doGetRequest_url `{!Collaborators} (self : API) (draw : Z)
    (path : string) :
  url (_doGetRequest self draw path)
  = baseUrl self +:+ "/v1" +:+ path
    +:+ (if indexOf_positive path "?" then "&" else "?")
    +:+ "r=" +:+ decimal (_random 10000 99999 draw).
Proof.
  unfold _doGetRequest. rewrite _doRequest_url. by rewrite append_assoc.
Qed.

Lemma _doGetRequest_method `{!Collaborators} (self : API) (draw : Z)
    (path : string) :
  method (_doGetRequest self draw path) = "get".
Proof. unfold _doGetRequest. apply _doRequest_method. Qed.

(** *** Where the question mark stands *)

Lemma index_question_mark (b : ascii) (s : string) :
  String.index 0 "?" (String b s)
  = if Ascii.eqb b "?" then Some 0%nat
    else S <$> String.index 0 "?" s.
Proof.
  cbn [String.index String.prefix].
  destruct (ascii_dec "?" b) as [<- | Hne].
  - by destruct s.
  - rewrite (proj2 (Ascii.eqb_neq b "?")) by congruence.
    by destruct (String.index 0 "?" s).
Qed.

Lemma index_question_mark_Some (s : string) :
  is_Some (String.index 0 "?" s) <-> occurs "?" s.
Proof.
  unfold occurs. induction s as [|b s IH].
  - simpl. split; [by intros [? ?] | done].
  - rewrite index_question_mark. cbn [list_ascii_of_string In].
    destruct (Ascii.eqb_spec b "?") as [-> | Hne].
    + split; eauto.
    + rewrite fmap_is_Some, IH. split; [by right |].
      by intros [Heq | Hin].
Qed.

(** [url.indexOf('?') > 0] holds exactly when the path has a [?] after a
    first character that is not one. *)
Lemma indexOf_positive_iff (b : ascii) (s : string) :
  indexOf_positive (String b s) "?" = true <-> b ≠ "?"%char /\ occurs "?" s.
Proof.
  unfold indexOf_positive. rewrite index_question_mark.
  destruct (Ascii.eqb_spec b "?") as [-> | Hne].
  - split; [done | by intros [? _]].
  - rewrite <- index_question_mark_Some.
    destruct (String.index 0 "?" s); simpl.
    + split; eauto.
    + split; [done | by intros [_ [? ?]]].
Qed.

Lemma indexOf_positive_without (path : string) :
  ~ occurs "?" path -> indexOf_positive path "?" = false.
Proof.
  intros Hpath. destruct path as [|b rest]; [done|].
  destruct (indexOf_positive (String b rest) "?") eqn:Hpos; [|done].
  apply indexOf_positive_iff in Hpos as [_ Hin].
  exfalso. apply Hpath. unfold occurs in *. cbn [list_ascii_of_string In].
  by right.
Qed.

Lemma occurs_append (c : ascii) (s t : string) :
  occurs c (s +:+ t) <-> occurs c s \/ occurs c t.
Proof.
  unfold occurs. induction s as [|b s IH].
  - change ("" +:+ t) with t. simpl. tauto.
  - change (String b s +:+ t) with (String b (s +:+ t)).
    cbn [list_ascii_of_string In]. rewrite IH. tauto.
Qed.

Lemma occurs_balances (a : string) :
  occurs "?" ("balances/" +:+ a) <-> occurs "?" a.
Proof.
  rewrite occurs_append. split; [|by right].
  intros [Hin | Ha]; [|done]. exfalso. unfold occurs in Hin. simpl in Hin.
  repeat (destruct Hin as [Hin | Hin]; [discriminate Hin|]). done.
Qed.

(** The number of a GET request lies between the bounds that
    [_doGetRequest] passes to [_.random], and its numeral has five digits. *)
Lemma cache_buster_five_digits `{!Collaborators} (draw : Z) :
  let n := _random 10000 99999 draw in
  10000 <= n <= 99999
  /\ String.length (decimal n) = 5%nat
  /\ number_of_digits (decimal n) 0 = Some n.
Proof.
  intros n. assert (Hn : 10000 <= n <= 99999) by (apply _random_between; lia).
  split; [done|]. split.
  - by apply decimal_five_digits_length.
  - by apply decimal_five_digits_value.
Qed.

Lemma getBalances_url `{!Collaborators} (self : API) (draw : Z)
    (address : value) (a : string) :
  to_string address = Ok a ->
  exists r : RequestArgs,
    getBalances self draw address = Ok (Dispatch r)
    /\ method r = "get"
    /\ (~ occurs "?" a ->
        url r = baseUrl self +:+ "/v1/balances/" +:+ a +:+ "?r="
                +:+ decimal (_random 10000 99999 draw))
    /\ (occurs "?" a ->
        url r = baseUrl self +:+ "/v1/balances/" +:+ a +:+ "&r="
                +:+ decimal (_random 10000 99999 draw)).
Proof.
  intros Ha. unfold getBalances. rewrite Ha. cbn [mbind result_bind].
  eexists. split; [reflexivity|]. split; [apply _doGetRequest_method|].
  rewrite _doGetRequest_url, (append_assoc "/balances/" a).
  change ("/balances/" +:+ a) with (String "/" ("balances/" +:+ a)).
  split.
  - intros Hno. rewrite indexOf_positive_without; [done|].
    unfold occurs. cbn [list_ascii_of_string In]. intros [Heq | Hin].
    + discriminate Heq.
    + by apply Hno, occurs_balances.
  - intros Hin.
    rewrite (proj2 (indexOf_positive_iff "/" ("balances/" +:+ a))); [done|].
    split; [discriminate | by apply occurs_balances].
Qed.

(** C9: the number of a GET request is what [_.random] draws between 10000
    and 99999, so that its numeral has five digits; a GET request goes to
    the base URL, then [/v1], then the path, then [?r=] and the numeral when
    the path has no [?], and [&r=] and the numeral when it has one after its
    first character; [getVersion] asks for [/version] and [getBalances] for
    [/balances/] and the address in this way, and they are the operations
    that send a GET; POST, PUT and DELETE requests go to the base URL, [/v1]
    and the path, with nothing added. *)
Theorem get_requests_bust_caches `{!Collaborators} (self : API) (draw : Z) :
  let n := _random 10000 99999 draw in
  (10000 <= n <= 99999
   /\ String.length (decimal n) = 5%nat
   /\ number_of_digits (decimal n) 0 = Some n)
  /\ (forall path : string,
      ~ occurs "?" path ->
      let r := _doGetRequest self draw path in
      method r = "get"
      /\ url r = baseUrl self +:+ "/v1" +:+ path +:+ "?r=" +:+ decimal n)
  /\ (forall (b : ascii) (rest : string),
      b ≠ "?"%char -> occurs "?" rest ->
      let r := _doGetRequest self draw (String b rest) in
      method r = "get"
      /\ url r = baseUrl self +:+ "/v1" +:+ String b rest +:+ "&r="
                 +:+ decimal n)
  /\ (exists r : RequestArgs,
      getVersion self draw = Ok (Dispatch r)
      /\ method r = "get"
      /\ url r = baseUrl self +:+ "/v1/version?r=" +:+ decimal n)
  /\ (forall (address : value) (a : string),
      to_string address = Ok a ->
      exists r : RequestArgs,
        getBalances self draw address = Ok (Dispatch r)
        /\ method r = "get"
        /\ (~ occurs "?" a ->
            url r = baseUrl self +:+ "/v1/balances/" +:+ a +:+ "?r="
                    +:+ decimal n)
        /\ (occurs "?" a ->
            url r = baseUrl self +:+ "/v1/balances/" +:+ a +:+ "&r="
                    +:+ decimal n))
  /\ (forall (op : operation) (r : RequestArgs),
      perform self draw op = Ok (Dispatch r) ->
      method r = "get" ->
      op = OpGetVersion \/ exists address, op = OpGetBalances address)
  /\ (forall (path : string) (args : gmap string value),
      url (_doPostRequest self path args) = baseUrl self +:+ "/v1" +:+ path
      /\ url (_doPutRequest self path args) = baseUrl self +:+ "/v1" +:+ path
      /\ url (_doDeleteRequest self path) = baseUrl self +:+ "/v1" +:+ path).
Proof.
  intros n. split; [apply cache_buster_five_digits|].
  split; [|split; [|split; [|split; [|split]]]].
  - intros path Hpath r. subst r. split; [apply _doGetRequest_method|].
    by rewrite _doGetRequest_url, (indexOf_positive_without path Hpath).
  - intros b rest Hb Hrest r. subst r. split; [apply _doGetRequest_method|].
    by rewrite _doGetRequest_url, (proj2 (indexOf_positive_iff b rest)).
  - eexists. split; [reflexivity|]. split; [apply _doGetRequest_method|].
    by rewrite _doGetRequest_url.
  - intros address a Ha. by apply getBalances_url.
  - intros op r Hop Hget. destruct op; simpl in Hop; [by left | eauto | ..].
    + unfold getTransactions in Hop.
      destruct (null_or_empty txids) as [[|]|]; simpl in Hop; try discriminate.
      injection Hop as <-. unfold _doPostRequest in Hget.
      by rewrite _doRequest_method in Hget.
    + unfold getBvamInfo in Hop.
      destruct (null_or_empty assets) as [[|]|]; simpl in Hop; try discriminate.
      injection Hop as <-. unfold _doPostRequest in Hget.
      by rewrite _doRequest_method in Hget.
    + unfold addBvamData in Hop.
      destruct (is_nullish bvamData); try discriminate.
      injection Hop as <-. unfold _doPostRequest in Hget.
      by rewrite _doRequest_method in Hget.
  - intros path args.
    unfold _doPostRequest, _doPutRequest, _doDeleteRequest.
    by rewrite !_doRequest_url.
Qed.

Lemma get_requests_bust_caches_witness :
  url (_doGetRequest (H := example_collaborators) (example_client None) 48213
         "/balances/abc")
  = "http://localhost:3232/counterparty/api/v1/balances/abc?r=48213"
  /\ exists r : RequestArgs,
       getBalances (H := example_collaborators) (example_client None) 48213
         (VStr "abc?x=1")
       = Ok (Dispatch r)
       /\ url r
          = "http://localhost:3232/counterparty/api/v1/balances/abc?x=1&r=48213".
Proof.
  destruct (get_requests_bust_caches (H := example_collaborators)
              (example_client None) 48213)
    as (_ & Hplain & _ & _ & Hbalances & _).
  split.
  - destruct (Hplain "/balances/abc") as (_ & Hurl).
    + unfold occurs. simpl. intros Hin.
      repeat (destruct Hin as [Hin | Hin]; [discriminate Hin|]). exact Hin.
    + etrans; [exact Hurl | reflexivity].
  - destruct (Hbalances (VStr "abc?x=1") "abc?x=1" eq_refl)
      as (r & Hr & _ & _ & Hamp).
    exists r. split; [exact Hr|].
    etrans; [apply Hamp | reflexivity].
    unfold occurs. simpl. tauto.
Defined.
(** ** Arguments that are checked before any request *)

Lemma _doPostRequest_plain_body `{!Collaborators} (self : API) (u : string)
    (args : gmap string value) :
  args !! "_requestPrivKey" = None ->
  body (_doPostRequest self u args) = args.
Proof.
  intros Hnone. unfold _doPostRequest.
  destruct (_doRequest_fields self "post" u args) as (_ & -> & _).
  unfold _getHeaders. rewrite Hnone. simpl.
  destruct (credentials self) as [c|]; [|done].
  destruct (truthy (js_or VUndefined (requestPrivKey c))); [|done].
  simpl. by apply delete_id.
Qed.

(** C8: [getBvamInfo] with [null], [undefined] or an empty list, and
    [addBvamData] with [null] or [undefined], invoke the callback with the
    message of the failed check as its error and put no request on the
    network; with a list that has an element, [getBvamInfo] posts
    [{assets: list}] to [/bvam/info], and with any payload other than [null]
    and [undefined], [addBvamData] posts [{bvam: payload}] to [/bvam]. *)
Theorem local_validation `{!Collaborators} (self : API) :
  (forall assets : value,
      assets = VNull \/ assets = VUndefined \/ assets = VArr [] ->
      getBvamInfo self assets
      = Ok (Invoke (cb_error (Some (ErrString "Asset names were invalid"))))
      /\ (forall e, getBvamInfo self assets = Ok e -> network_calls e = []))
  /\ (forall bvamData : value,
      bvamData = VNull \/ bvamData = VUndefined ->
      addBvamData self bvamData
      = Ok (Invoke (cb_error (Some (ErrString "bvam data is required"))))
      /\ (forall e, addBvamData self bvamData = Ok e -> network_calls e = []))
  /\ (forall (a : value) (l : list value),
      exists r : RequestArgs,
        getBvamInfo self (VArr (a :: l)) = Ok (Dispatch r)
        /\ method r = "post"
        /\ url r = baseUrl self +:+ "/v1" +:+ "/bvam/info"
        /\ body r = {[ "assets" := VArr (a :: l) ]})
  /\ (forall bvamData : value,
      is_nullish bvamData = false ->
      exists r : RequestArgs,
        addBvamData self bvamData = Ok (Dispatch r)
        /\ method r = "post"
        /\ url r = baseUrl self +:+ "/v1" +:+ "/bvam"
        /\ body r = {[ "bvam" := bvamData ]}).
Proof.
  split; [|split; [|split]].
  - intros assets Hassets.
    assert (Heq : getBvamInfo self assets
                  = Ok (Invoke (cb_error
                                  (Some (ErrString "Asset names were invalid"))))).
    { by destruct Hassets as [-> | [-> | ->]]. }
    split; [exact Heq|]. intros e He. rewrite Heq in He. by injection He as <-.
  - intros bvamData Hdata.
    assert (Heq : addBvamData self bvamData
                  = Ok (Invoke (cb_error (Some (ErrString "bvam data is required"))))).
    { by destruct Hdata as [-> | ->]. }
    split; [exact Heq|]. intros e He. rewrite Heq in He. by injection He as <-.
  - intros a l. eexists. split; [reflexivity|].
    split; [apply _doRequest_method|].
    split; [apply _doRequest_url|].
    by apply _doPostRequest_plain_body.
  - intros bvamData Hdata. unfold addBvamData. rewrite Hdata.
    eexists. split; [reflexivity|].
    split; [apply _doRequest_method|].
    split; [apply _doRequest_url|].
    by apply _doPostRequest_plain_body.
Qed.

Lemma local_validation_witness :
  getBvamInfo (H := example_collaborators)
    (example_client (Some example_credentials)) (VArr [])
  = Ok (Invoke (cb_error (Some (ErrString "Asset names were invalid"))))
  /\ addBvamData (H := example_collaborators)
       (example_client (Some example_credentials)) VUndefined
     = Ok (Invoke (cb_error (Some (ErrString "bvam data is required"))))
  /\ exists r : RequestArgs,
       addBvamData (H := example_collaborators)
         (example_client (Some example_credentials)) (VStr "payload")
       = Ok (Dispatch r)
       /\ method r = "post"
       /\ url r = "http://localhost:3232/counterparty/api/v1/bvam"
       /\ body r = {[ "bvam" := VStr "payload" ]}.
Proof.
  destruct (local_validation (H := example_collaborators)
              (example_client (Some example_credentials)))
    as (Hinfo & Hadd & _ & Hpost).
  split; [|split].
  - apply (Hinfo (VArr [])). right. right. reflexivity.
  - apply (Hadd VUndefined). right. reflexivity.
  - apply (Hpost (VStr "payload")). reflexivity.
Defined.

(** ** Classification of the responses with status 200 *)

(** C3, where the code departs from it: a response with status 200 and no
    body, [undefined] or [null], makes the callback throw at [body.errors];
    it reports neither success nor an error. *)
Theorem ok_status_without_body_throws `{!Collaborators} (h : value) :
  on_response (Some {| statusCode := VNum 200; header := h |}) VUndefined
  = Throw TypeError
  /\ on_response (Some {| statusCode := VNum 200; header := h |}) VNull
     = Throw TypeError.
Proof. split; reflexivity. Qed.

(** With a body that is neither [undefined] nor [null], status 200 is
    classified as section 4.3 has it: the literal body gives
    ECONNRESET_ERROR with the parsed body, which comes first; [errors] and
    [message] that are both non-null give an [Error] of the message;
    everything else is the success, with the body and [res.header]. *)
Lemma ok_status_classification `{!Collaborators} (res : Response) (body : value) :
  statusCode res = VNum 200 ->
  is_nullish body = false ->
  (body = VStr ECONNRESET_BODY ->
   forall parsed, JSON_parse ECONNRESET_BODY = Ok parsed ->
     on_response (Some res) body
     = Ok (cb_error (Some (ClientError "ECONNRESET_ERROR" [parsed]))))
  /\ (body ≠ VStr ECONNRESET_BODY ->
      exists errors message,
        get body "errors" = Ok errors
        /\ get body "message" = Ok message
        /\ on_response (Some res) body
           = if negb (is_nullish errors) && negb (is_nullish message)
             then e ← new_Error message; Ok (cb_error (Some e))
             else Ok (cb_success body (header res))).
Proof.
  intros Hstatus Hbody. unfold on_response. rewrite Hstatus.
  cbn [strict_eq_num Z.eqb Pos.eqb negb].
  split.
  - intros -> parsed Hparsed.
    rewrite (proj2 (strict_eq_str_true _ _) eq_refl).
    rewrite Hparsed. cbn [mbind result_bind].
    by rewrite (new_Errors_registered _ _ ECONNRESET_ERROR_registered).
  - intros Hne.
    destruct (strict_eq_str body ECONNRESET_BODY) eqn:Heq.
    { by apply strict_eq_str_true in Heq. }
    destruct (get_Ok body "errors" Hbody) as [errors Herrors].
    destruct (get_Ok body "message" Hbody) as [message Hmessage].
    exists errors, message. by rewrite Herrors, Hmessage.
Qed.

(** ** Classification of the other statuses *)

(** A status for which the callback turns to the body: truthy, and neither
    200 nor 404. *)
Lemma on_response_error_status `{!Collaborators} (r : Response) (body : value) :
  truthy (statusCode r) = true ->
  strict_eq_num (statusCode r) 200 = false ->
  strict_eq_num (statusCode r) 404 = false ->
  on_response (Some r) body
  = (_ ← to_string (statusCode r);
     if truthy body then e ← _parseError body; Ok (cb_error e)
     else e ← new_Error (statusCode r); Ok (cb_error (Some e))).
Proof.
  intros Hstatus H200 H404. unfold on_response.
  rewrite H200, H404, Hstatus. cbn [negb].
  destruct (to_string (statusCode r)); [|done]. cbn [mbind result_bind].
  by destruct (truthy body).
Qed.

Lemma new_Error_truthy `{!Collaborators} (v : value) :
  truthy v = true ->
  new_Error v = (message ← to_string v; Ok (Error_ message)).
Proof. by destruct v. Qed.

Lemma new_Error_not_nullish `{!Collaborators} (v : value) :
  is_nullish v = false ->
  new_Error v = (message ← to_string v; Ok (Error_ message)).
Proof. by destruct v. Qed.

(** What [_parseError] does with the structure [v] that it reads [code] and
    [message] from. *)
Lemma _parseError_structure `{!Collaborators} (body v : value) :
  truthy body = true ->
  structure_of body v ->
  _parseError body = error_of_structure v.
Proof.
  intros Hbody Hv. unfold _parseError, error_of_structure.
  rewrite Hbody. cbn [negb].
  assert (Hstructure :
            match body with
            | VStr s =>
                try_catch (JSON_parse s)
                  (fun _ => Ok (VObj {[ "error" := body ]}))
            | _ => Ok body
            end = Ok v).
  { destruct Hv as [[Hstr ->] | (s & -> & Hparse)].
    - by destruct body.
    - by rewrite Hparse. }
  rewrite Hstructure. cbn [mbind result_bind].
  destruct (get v "code") as [code|]; [|done]. cbn [mbind result_bind].
  destruct (truthy code) eqn:Hcode; [|done].
  rewrite (new_Error_truthy code Hcode).
  destruct (to_string code) as [k|]; [|done]. cbn [mbind result_bind].
  destruct (bool_decide (k ∈ Errors)) eqn:Hknown.
  - apply bool_decide_eq_true_1 in Hknown.
    by rewrite (new_Errors_registered _ _ Hknown).
  - by destruct (other_members !! k) as [[|]|].
Qed.

(** A string body that is not JSON: [_parseError] wraps it as
    [{error: body}] and then reads [message], so that the [Error] is made
    from the wrapper and the string is not its message. *)
Lemma _parseError_unparsable `{!Collaborators} (s : string) (e : exn) :
  truthy (VStr s) = true ->
  JSON_parse s = Throw e ->
  _parseError (VStr s) = Ok (Some (Error_ "[object Object]")).
Proof.
  intros Hs Hparse. unfold _parseError. rewrite Hs.
  cbn [negb]. rewrite Hparse. reflexivity.
Qed.

Lemma _parseError_is_Some `{!Collaborators} (body : value) (o : option error) :
  truthy body = true -> _parseError body = Ok o -> is_Some o.
Proof.
  intros Hbody. unfold _parseError. rewrite Hbody. cbn [negb].
  destruct (match body with
            | VStr s => try_catch (JSON_parse s) _
            | _ => Ok body
            end) as [v|]; [|done].
  cbn [mbind result_bind].
  destruct (get v "code") as [code|]; [|done]. cbn [mbind result_bind].
  destruct (truthy code).
  - destruct (to_string code) as [k|]; [|done]. cbn [mbind result_bind].
    destruct (bool_decide (k ∈ Errors)).
    + destruct (new_Errors k []); [|done].
      cbn [mbind result_bind]. intros [= <-]. eauto.
    + destruct (other_members !! k) as [[|]|]; try done.
      * intros [= <-]. eauto.
      * destruct (new_Error code); [|done]. intros [= <-]. eauto.
  - destruct (get v "message"); [|done]. cbn [mbind result_bind].
    destruct (new_Error _); [|done]. intros [= <-]. eauto.
Qed.

(** C5, as the claim has it, fails, each time at status 500.  Without a body
    the error is an [Error] of the status, not of the body.  A [code] or a
    [message] that is there but falsy is passed over: [{code: 0, message:
    "m"}] gives an [Error] of the message and [{message: ""}] one of the
    whole body.  A body that is no JSON gives [[object Object]] and not its
    text; the JSON text of [null] and a [code] that names an inherited
    member of the registry object make the callback throw. *)
Lemma error_not_always_derived_as_specified :
  let H := example_collaborators in
  let r := Some (response (VNum 500)) in
  (on_response r VUndefined = Ok (cb_error (Some (Error_ "500")))
   /\ on_response r VUndefined ≠ spec_on_error_status VUndefined)
  /\ (on_response r (VObj (<[ "message" := VStr "m" ]> {[ "code" := VNum 0 ]}))
      = Ok (cb_error (Some (Error_ "m")))
      /\ spec_on_error_status
           (VObj (<[ "message" := VStr "m" ]> {[ "code" := VNum 0 ]}))
         = Ok (cb_error (Some (Error_ "0"))))
  /\ (on_response r (VObj {[ "message" := VStr "" ]})
      = Ok (cb_error (Some (Error_ "[object Object]")))
      /\ spec_on_error_status (VObj {[ "message" := VStr "" ]})
         = Ok (cb_error (Some (Error_ ""))))
  /\ (on_response r (VStr "Bad Gateway")
      = Ok (cb_error (Some (Error_ "[object Object]")))
      /\ spec_on_error_status (VStr "Bad Gateway")
         = Ok (cb_error (Some (Error_ "Bad Gateway"))))
  /\ (on_response r (VStr "null") = Throw TypeError
      /\ spec_on_error_status (VStr "null")
         = Ok (cb_error (Some (Error_ "null"))))
  /\ (on_response r (VObj {[ "code" := VStr "__proto__" ]}) = Throw TypeError
      /\ spec_on_error_status (VObj {[ "code" := VStr "__proto__" ]})
         = Ok (cb_error (Some (Error_ "__proto__")))).
Proof.
  intros H r. repeat split; try reflexivity.
  vm_compute. discriminate.
Qed.

(** C5, amended: for a truthy status other than 200 and 404, a falsy body
    gives an [Error] whose message is the status code; a truthy body is read
    as a structure, after parsing when it is a string; a truthy [code] of a
    registered kind gives that kind, and a truthy [code] that names nothing
    in the registry object an [Error] whose message is the code; without a
    truthy [code], a truthy [message] gives an [Error] of it, and otherwise
    the [Error] is made from the whole structure.  A value that has no
    string form makes the conversion throw.  A string body that does not
    parse or parses to [null], and a [code] that names another member of
    the registry object, are left out. *)
Theorem error_from_body `{!Collaborators} (res : Response) (body : value) :
  truthy (statusCode res) = true ->
  strict_eq_num (statusCode res) 200 = false ->
  strict_eq_num (statusCode res) 404 = false ->
  (truthy body = false ->
   on_response (Some res) body
   = (status ← to_string (statusCode res);
      Ok (cb_error (Some (Error_ status)))))
  /\ (forall v : value,
      truthy body = true ->
      structure_of body v ->
      is_nullish v = false ->
      exists code message : value,
        get v "code" = Ok code
        /\ get v "message" = Ok message
        /\ (truthy code = true ->
            (forall k, to_string code = Ok k ->
                       k ∉ Errors -> other_members !! k = None) ->
            on_response (Some res) body
            = (_ ← to_string (statusCode res);
               k ← to_string code;
               Ok (cb_error (Some (if bool_decide (k ∈ Errors)
                                   then ClientError k []
                                   else Error_ k)))))
        /\ (truthy code = false ->
            on_response (Some res) body
            = (_ ← to_string (statusCode res);
               text ← to_string (if truthy message then message else v);
               Ok (cb_error (Some (Error_ text)))))).
Proof.
  intros Hstatus H200 H404.
  rewrite (on_response_error_status res body Hstatus H200 H404).
  split.
  - intros ->. rewrite (new_Error_truthy _ Hstatus).
    by destruct (to_string (statusCode res)).
  - intros v Hbody Hv Hnullish. rewrite Hbody.
    rewrite (_parseError_structure body v Hbody Hv).
    unfold error_of_structure.
    destruct (get_Ok v "code" Hnullish) as [code Hcode].
    destruct (get_Ok v "message" Hnullish) as [message Hmessage].
    exists code, message. rewrite Hcode, Hmessage. cbn [mbind result_bind].
    split; [done|]. split; [done|]. split.
    + intros Hc Hmember. rewrite Hc.
      destruct (to_string (statusCode res)); [|done]. cbn [mbind result_bind].
      destruct (to_string code) as [k|] eqn:Hk; [|done].
      cbn [mbind result_bind].
      destruct (bool_decide (k ∈ Errors)) eqn:Hknown; [done|].
      apply bool_decide_eq_false_1 in Hknown.
      by rewrite (Hmember k eq_refl Hknown).
    + intros Hc. rewrite Hc.
      destruct (to_string (statusCode res)); [|done]. cbn [mbind result_bind].
      assert (Hnot : is_nullish (js_or message v) = false).
      { unfold js_or. destruct (truthy message) eqn:Hm; [|done].
        by apply truthy_not_nullish. }
      rewrite (new_Error_not_nullish _ Hnot). unfold js_or.
      by destruct (to_string (if truthy message then message else v)).
Qed.

Lemma error_from_body_witness :
  on_response (H := example_collaborators) (Some (response (VNum 403)))
    (VStr (code_body "NOT_AUTHORIZED"))
  = Ok (cb_error (Some (ClientError "NOT_AUTHORIZED" [])))
  /\ on_response (H := example_collaborators) (Some (response (VNum 403)))
       (VStr (code_body "UNKNOWN_X"))
     = Ok (cb_error (Some (Error_ "UNKNOWN_X")))
  /\ on_response (H := example_collaborators) (Some (response (VNum 403)))
       (VStr "")
     = Ok (cb_error (Some (Error_ "403"))).
Proof.
  split; [|split].
  - destruct (error_from_body (H := example_collaborators)
                (response (VNum 403)) (VStr (code_body "NOT_AUTHORIZED"))
                eq_refl eq_refl eq_refl) as (_ & Hparsed).
    destruct (Hparsed (VObj {[ "code" := VStr "NOT_AUTHORIZED" ]}) eq_refl)
      as (code & message & Hcode & Hmessage & Hcoded & _).
    + right. exists (code_body "NOT_AUTHORIZED"). split; reflexivity.
    + reflexivity.
    + vm_compute in Hcode. injection Hcode as <-.
      etrans; [apply Hcoded|].
      * reflexivity.
      * intros k [= <-] Hk. exfalso. apply Hk. vm_compute. reflexivity.
      * reflexivity.
  - destruct (error_from_body (H := example_collaborators)
                (response (VNum 403)) (VStr (code_body "UNKNOWN_X"))
                eq_refl eq_refl eq_refl) as (_ & Hparsed).
    destruct (Hparsed (VObj {[ "code" := VStr "UNKNOWN_X" ]}) eq_refl)
      as (code & message & Hcode & Hmessage & Hcoded & _).
    + right. exists (code_body "UNKNOWN_X"). split; reflexivity.
    + reflexivity.
    + vm_compute in Hcode. injection Hcode as <-.
      etrans; [apply Hcoded|].
      * reflexivity.
      * intros k [= <-] _. reflexivity.
      * reflexivity.
  - destruct (error_from_body (H := example_collaborators)
                (response (VNum 403)) (VStr "")
                eq_refl eq_refl eq_refl) as (Hfalsy & _).
    etrans; [apply Hfalsy|]; reflexivity.
Defined.

(** ** One outcome for each operation *)

(** Whenever the response callback ends by invoking [cb], it passes an
    error alone, or, under status 200 and with a body that is neither
    [undefined] nor [null], the body with [res.header]. *)
Lemma on_response_outcome `{!Collaborators} (res : option Response)
    (body : value) (c : Callback) :
  on_response res body = Ok c ->
  (exists e, c = cb_error (Some e))
  \/ (exists r, res = Some r /\ statusCode r = VNum 200
                /\ is_nullish body = false
                /\ c = cb_success body (header r)).
Proof.
  unfold on_response. destruct res as [r|].
  - destruct (strict_eq_num (statusCode r) 200) eqn:H200; cbn [negb].
    + apply strict_eq_num_true in H200.
      destruct (strict_eq_str body ECONNRESET_BODY).
      { destruct (JSON_parse ECONNRESET_BODY); [|done].
        cbn [mbind result_bind].
        destruct (new_Errors "ECONNRESET_ERROR" _); [|done].
        intros [= <-]. left. eauto. }
      destruct (is_nullish body) eqn:Hnull.
      { by rewrite (get_Throw body "errors" Hnull). }
      destruct (get body "errors") as [errors|]; [|done].
      destruct (get body "message") as [message|]; [|done].
      cbn [mbind result_bind].
      destruct (negb (is_nullish errors) && negb (is_nullish message)).
      * destruct (new_Error message); [|done]. intros [= <-]. left. eauto.
      * intros [= <-]. right. eauto.
    + destruct (strict_eq_num (statusCode r) 404).
      { destruct (new_Errors "NOT_FOUND" []); [|done].
        intros [= <-]. left. eauto. }
      destruct (negb (truthy (statusCode r))).
      { destruct (new_Errors "CONNECTION_ERROR" []); [|done].
        intros [= <-]. left. eauto. }
      destruct (to_string (statusCode r)); [|done]. cbn [mbind result_bind].
      destruct (truthy body) eqn:Hbody; cbn [negb].
      * destruct (_parseError body) as [o|] eqn:Hparse; [|done].
        destruct (_parseError_is_Some body o Hbody Hparse) as [e ->].
        intros [= <-]. left. eauto.
      * destruct (new_Error (statusCode r)); [|done].
        intros [= <-]. left. eauto.
  - destruct (new_Errors "CONNECTION_ERROR" []); [|done].
    intros [= <-]. left. eauto.
Qed.

Lemma perform_invokes `{!Collaborators} (self : API) (draw : Z)
    (op : operation) (c : Callback) :
  perform self draw op = Ok (Invoke c) ->
  (exists e, c = cb_error (Some e))
  \/ (exists address txids,
        op = OpGetTransactions address txids
        /\ c = cb_success (VArr []) VUndefined).
Proof.
  destruct op; simpl; try discriminate.
  - unfold getBalances. by destruct (to_string address).
  - unfold getTransactions.
    destruct (null_or_empty txids) as [[|]|]; simpl; try discriminate.
    intros [= <-]. right. eauto.
  - unfold getBvamInfo.
    destruct (null_or_empty assets) as [[|]|]; simpl; try discriminate.
    intros [= <-]. left. eauto.
  - unfold addBvamData. destruct (is_nullish bvamData); try discriminate.
    intros [= <-]. left. eauto.
Qed.

(** X2: whenever an operation gets as far as calling [cb], the call is one
    of three: an error and nothing else; the empty list that
    [getTransactions] reports without a request; or, for a request that was
    answered with status 200 and a body that is neither [undefined] nor
    [null], that body with [res.header].  In particular [cb] is never called
    with [undefined] alone, which is what [_parseError] returns for a falsy
    body. *)
Theorem run_one_outcome `{!Collaborators} (self : API)
    (transport : RequestArgs -> option Response * value) (draw : Z)
    (op : operation) (c : Callback) :
  run self transport draw op = Ok c ->
  (exists e, c = cb_error (Some e))
  \/ (exists address txids,
        op = OpGetTransactions address txids
        /\ c = cb_success (VArr []) VUndefined)
  \/ (exists (rq : RequestArgs) (r : Response) (body : value),
        perform self draw op = Ok (Dispatch rq)
        /\ transport rq = (Some r, body)
        /\ statusCode r = VNum 200
        /\ is_nullish body = false
        /\ c = cb_success body (header r)).
Proof.
  unfold run. destruct (perform self draw op) as [[c'|rq]|] eqn:Hperform;
    cbn [mbind result_bind]; try discriminate.
  - intros [= <-].
    destruct (perform_invokes self draw op c' Hperform) as [He | Hempty];
      [by left | by right; left].
  - destruct (transport rq) as [res body] eqn:Htransport. intros Hres.
    destruct (on_response_outcome res body c Hres)
      as [He | (r & -> & H200 & Hbody & ->)]; [by left|].
    right. right. exists rq, r, body. done.
Qed.

Lemma run_one_outcome_witness :
  (exists e, cb_error (Some (ClientError "NOT_FOUND" [])) = cb_error (Some e))
  \/ (exists address txids,
        OpGetVersion = OpGetTransactions address txids
        /\ cb_error (Some (ClientError "NOT_FOUND" []))
           = cb_success (VArr []) VUndefined)
  \/ (exists (rq : RequestArgs) (r : Response) (body : value),
        perform (H := example_collaborators) (example_client None) 12345
          OpGetVersion = Ok (Dispatch rq)
        /\ (Some (response (VNum 404)), VUndefined) = (Some r, body)
        /\ statusCode r = VNum 200
        /\ is_nullish body = false
        /\ cb_error (Some (ClientError "NOT_FOUND" []))
           = cb_success body (header r)).
Proof.
  apply (run_one_outcome (H := example_collaborators) (example_client None)
           (fun _ => (Some (response (VNum 404)), VUndefined)) 12345
           OpGetVersion).
  reflexivity.
Defined.

(** The conversion to a string throws nothing but a [TypeError]. *)
Lemma value_array_ind (P : value -> Prop) :
  P VUndefined -> P VNull -> (forall b, P (VBool b)) ->
  (forall n, P (VNum n)) -> (forall s, P (VStr s)) ->
  (forall l, Forall P l -> P (VArr l)) -> (forall m, P (VObj m)) ->
  forall v, P v.
Proof.
  intros Hundefined Hnull Hbool Hnum Hstr Harr Hobj.
  fix IH 1. intros [| |b|n|s|l|m];
    [exact Hundefined | exact Hnull | apply Hbool | apply Hnum | apply Hstr
    | | apply Hobj].
  apply Harr. induction l as [|x l' IHl]; constructor; [apply IH | exact IHl].
Qed.

Lemma to_string_Throw `{!Collaborators} (v : value) (e : exn) :
  to_string v = Throw e -> e = TypeError.
Proof.
  revert e. induction v as [| |b|n|s|l IHl|m] using value_array_ind;
    intros e; try discriminate.
  - destruct b; discriminate.
  - cbn [to_string]. revert e. induction IHl as [|x l' Hx _ IHl']; intros e.
    { discriminate. }
    cbn [join_with].
    destruct (match x with
              | VUndefined | VNull => Ok ""
              | _ => to_string x
              end) as [t|e'] eqn:Hhead; cbn [mbind result_bind].
    + destruct l' as [|y l'']; [discriminate|].
      fold (join_with to_string (y :: l'')).
      destruct (join_with to_string (y :: l'')) as [rest|e'];
        cbn [mbind result_bind]; [discriminate|].
      intros [= <-]. by apply IHl'.
    + intros [= <-]. apply Hx. by destruct x.
  - cbn [to_string]. destruct (bool_decide _); [|discriminate].
    by intros [= <-].
Qed.

(** C1, where the code departs from it: when the transport answers a
    request with status 200 and no body, the response callback throws at
    [body.errors] before it invokes [cb]; the operation delivers neither a
    value nor an error. *)
Theorem empty_ok_reply_delivers_nothing `{!Collaborators} (self : API)
    (rnd : Z) (h address : value) :
  let transport := fun _ : RequestArgs =>
    (Some {| statusCode := VNum 200; header := h |}, VUndefined) in
  run self transport rnd OpGetVersion = Throw TypeError
  /\ run self transport rnd (OpGetBalances address) = Throw TypeError
  /\ forall c : Callback, run self transport rnd OpGetVersion ≠ Ok c.
Proof.
  intros transport.
  assert (Hversion : run self transport rnd OpGetVersion = Throw TypeError)
    by reflexivity.
  split; [exact Hversion|]. split.
  - unfold run, perform, getBalances.
    destruct (to_string address) as [a|e] eqn:Ha; [reflexivity|].
    by rewrite (to_string_Throw address e Ha).
  - intros c. by rewrite Hversion.
Qed.

(** * Further properties of the code *)

(** ** When the response callback throws *)

Lemma unstringable_iff `{!Collaborators} (v : value) :
  (exists e, to_string v = Throw e) <-> unstringable v.
Proof.
  unfold unstringable. split; [|eauto].
  intros [e He]. by rewrite He, (to_string_Throw v e He).
Qed.

Lemma new_Error_throws_iff `{!Collaborators} (v : value) :
  is_nullish v = false ->
  (exists e, new_Error v = Throw e) <-> unstringable v.
Proof.
  intros Hv. rewrite (new_Error_not_nullish v Hv), <- unstringable_iff.
  destruct (to_string v) as [s|e]; cbn [mbind result_bind];
    split; intros [e' He']; try discriminate; eauto.
Qed.

Lemma js_or_not_nullish (a b : value) :
  is_nullish b = false -> is_nullish (js_or a b) = false.
Proof.
  intros Hb. unfold js_or. destruct (truthy a) eqn:Ha; [|done].
  by apply truthy_not_nullish.
Qed.

Lemma get_Ok_not_nullish (v x : value) (k : string) :
  get v k = Ok x -> is_nullish v = false.
Proof. by destruct v. Qed.

Lemma error_of_structure_throws_iff `{!Collaborators} (v : value) :
  (exists e, error_of_structure v = Throw e) <-> structure_faults v.
Proof.
  unfold error_of_structure, structure_faults. split.
  - intros [e He]. destruct (is_nullish v) eqn:Hnull; [by left|]. right.
    destruct (get_Ok v "code" Hnull) as [code Hcode].
    exists code. split; [done|].
    rewrite Hcode in He. cbn [mbind result_bind] in He.
    destruct (truthy code) eqn:Htruthy.
    + left. split; [done|].
      destruct (to_string code) as [k|e'] eqn:Hk;
        cbn [mbind result_bind] in He.
      * right. exists k. split; [done|].
        destruct (bool_decide (k ∈ Errors)) eqn:Hknown; [discriminate|].
        apply bool_decide_eq_false_1 in Hknown. split; [done|].
        by destruct (other_members !! k) as [[|]|].
      * left. apply unstringable_iff. eauto.
    + right. split; [done|].
      destruct (get_Ok v "message" Hnull) as [message Hmessage].
      exists message. split; [done|].
      rewrite Hmessage in He. cbn [mbind result_bind] in He.
      apply new_Error_throws_iff; [by apply js_or_not_nullish|].
      destruct (new_Error (js_or message v)); [discriminate | eauto].
  - intros [Hnull | (code & Hcode & [[Htruthy [Hun | (k & Hk & Hno & Hm)]]
                                    | [Htruthy (message & Hmessage & Hun)]])].
    + rewrite (get_Throw v "code" Hnull). eauto.
    + rewrite Hcode. cbn [mbind result_bind]. rewrite Htruthy.
      unfold unstringable in Hun. rewrite Hun. eauto.
    + rewrite Hcode. cbn [mbind result_bind]. rewrite Htruthy, Hk.
      cbn [mbind result_bind].
      rewrite (bool_decide_eq_false_2 _ Hno), Hm. eauto.
    + rewrite Hcode. cbn [mbind result_bind]. rewrite Htruthy, Hmessage.
      cbn [mbind result_bind].
      apply new_Error_throws_iff in Hun as [e He].
      * rewrite He. eauto.
      * apply js_or_not_nullish. by apply (get_Ok_not_nullish v code "code").
Qed.

Lemma _parseError_throws_iff `{!Collaborators} (body : value) :
  truthy body = true ->
  (exists e, _parseError body = Throw e)
  <-> exists v, structure_of body v /\ structure_faults v.
Proof.
  intros Hbody. split.
  - intros [e He]. destruct (isString body) eqn:Hstr.
    + destruct body as [| | | |s| |]; try discriminate.
      destruct (JSON_parse s) as [v|e'] eqn:Hparse.
      * assert (Hv : structure_of (VStr s) v) by (right; eauto).
        exists v. split; [done|]. apply error_of_structure_throws_iff.
        rewrite <- (_parseError_structure (VStr s) v Hbody Hv). eauto.
      * rewrite (_parseError_unparsable s e' Hbody Hparse) in He. discriminate.
    + assert (Hv : structure_of body body) by (left; done).
      exists body. split; [done|]. apply error_of_structure_throws_iff.
      rewrite <- (_parseError_structure body body Hbody Hv). eauto.
  - intros (v & Hv & Hfaults).
    rewrite (_parseError_structure body v Hbody Hv).
    by apply error_of_structure_throws_iff.
Qed.

Lemma truthy_VStr (s : string) : truthy (VStr s) = true <-> s ≠ "".
Proof.
  simpl. rewrite negb_true_iff. split.
  - intros Hs ->. discriminate.
  - intros Hs. by apply String.eqb_neq.
Qed.

(** X1: the response callback leaves by an exception, without a call of
    [cb], in these situations and in no other.  Under status 200: the body
    is [undefined] or [null]; or it is the ECONNRESET literal and
    [JSON.parse] rejects it; or [errors] and [message] are both non-null and
    the message has no string form.  Under a truthy status other than 200
    and 404: the status has no string form; or the body is truthy and the
    structure that [_parseError] reads is one on which it throws, as
    [structure_faults] lists them. *)
Theorem on_response_throws_iff `{!Collaborators} (res : option Response)
    (body : value) :
  (exists e, on_response res body = Throw e)
  <-> exists r, res = Some r
      /\ ((statusCode r = VNum 200
           /\ (is_nullish body = true
               \/ (body = VStr ECONNRESET_BODY
                   /\ exists e, JSON_parse ECONNRESET_BODY = Throw e)
               \/ (body ≠ VStr ECONNRESET_BODY
                   /\ exists errors message,
                        get body "errors" = Ok errors
                        /\ get body "message" = Ok message
                        /\ is_nullish errors = false
                        /\ is_nullish message = false
                        /\ unstringable message)))
          \/ (error_status r
              /\ (unstringable (statusCode r)
                  \/ (truthy body = true
                      /\ exists v, structure_of body v
                                   /\ structure_faults v)))).
Proof.
  split.
  - intros [e He]. destruct res as [r|]; cycle 1.
    { simpl in He.
      by rewrite (new_Errors_registered _ _ CONNECTION_ERROR_registered) in He. }
    exists r. split; [done|]. unfold on_response in He.
    destruct (strict_eq_num (statusCode r) 200) eqn:H200; cbn [negb] in He.
    + apply strict_eq_num_true in H200. left. split; [done|].
      destruct (strict_eq_str body ECONNRESET_BODY) eqn:Hreset.
      * apply strict_eq_str_true in Hreset. subst body.
        right. left. split; [done|].
        destruct (JSON_parse ECONNRESET_BODY) as [parsed|e']; [|eauto].
        cbn [mbind result_bind] in He.
        by rewrite (new_Errors_registered _ _ ECONNRESET_ERROR_registered) in He.
      * destruct (is_nullish body) eqn:Hnull; [by left|]. right. right.
        split.
        { intros ->.
          by rewrite (proj2 (strict_eq_str_true _ _) eq_refl) in Hreset. }
        destruct (get_Ok body "errors" Hnull) as [errors Herrors].
        destruct (get_Ok body "message" Hnull) as [message Hmessage].
        exists errors, message. split; [done|]. split; [done|].
        rewrite Herrors, Hmessage in He. cbn [mbind result_bind] in He.
        destruct (is_nullish errors); [done|].
        destruct (is_nullish message) eqn:Hm; [done|]. cbn [negb andb] in He.
        split; [done|]. split; [done|].
        apply (new_Error_throws_iff message Hm).
        destruct (new_Error message); [discriminate | eauto].
    + right.
      destruct (strict_eq_num (statusCode r) 404) eqn:H404.
      { by rewrite (new_Errors_registered _ _ NOT_FOUND_registered) in He. }
      destruct (truthy (statusCode r)) eqn:Hstatus; cbn [negb] in He; cycle 1.
      { by rewrite (new_Errors_registered _ _ CONNECTION_ERROR_registered) in He. }
      split; [done|].
      destruct (to_string (statusCode r)) as [t|e'] eqn:Ht;
        cbn [mbind result_bind] in He; cycle 1.
      { left. apply unstringable_iff. eauto. }
      right. destruct (truthy body) eqn:Hbody; cbn [negb] in He.
      * split; [done|]. apply (_parseError_throws_iff body Hbody).
        destruct (_parseError body) as [o|e'] eqn:Hparse; [done | eauto].
      * rewrite (new_Error_truthy _ Hstatus), Ht in He. done.
  - intros (r & -> & [[H200 Hcase] | [(Hstatus & H200 & H404) Hcase]]).
    + unfold on_response. rewrite H200.
      rewrite (proj2 (strict_eq_num_true _ _) eq_refl). cbn [negb].
      destruct Hcase as [Hnull | [(-> & e & Hparse)
                                 | (Hne & errors & message & Herrors & Hmessage
                                    & He & Hm & Hun)]].
      * exists TypeError. by destruct body.
      * exists e. rewrite (proj2 (strict_eq_str_true _ _) eq_refl).
        by rewrite Hparse.
      * destruct (strict_eq_str body ECONNRESET_BODY) eqn:Hreset.
        { by apply strict_eq_str_true in Hreset. }
        rewrite Herrors, Hmessage. cbn [mbind result_bind].
        rewrite He, Hm. cbn [negb andb].
        apply (new_Error_throws_iff message Hm) in Hun as [e Hthrow].
        exists e. by rewrite Hthrow.
    + rewrite (on_response_error_status r body Hstatus H200 H404).
      destruct Hcase as [Hun | (Hbody & Hfaults)].
      * unfold unstringable in Hun. rewrite Hun. eauto.
      * destruct (to_string (statusCode r)); [|eauto].
        cbn [mbind result_bind]. rewrite Hbody.
        apply (_parseError_throws_iff body Hbody) in Hfaults as [e He].
        exists e. by rewrite He.
Qed.

Lemma on_response_throws_iff_witness :
  exists e,
    on_response (H := example_collaborators) (Some (response (VNum 500)))
      (VObj {[ "code" := VStr "__proto__" ]}) = Throw e.
Proof.
  apply (on_response_throws_iff (H := example_collaborators)).
  exists (response (VNum 500)). split; [reflexivity|].
  right. split; [repeat split|].
  right. split; [reflexivity|].
  exists (VObj {[ "code" := VStr "__proto__" ]}). split; [left; done|].
  right. exists (VStr "__proto__"). split; [reflexivity|].
  left. split; [reflexivity|]. right. exists "__proto__".
  split; [reflexivity|]. split; [|reflexivity].
  vm_compute. discriminate.
Defined.

(** ** What is delivered as a success *)

(** X3: the callback reports a success only for a response whose status is the
    number 200, and the success carries the body as it came and
    [res.header]; no other status, and no missing response, gives one. *)
Theorem success_only_for_200 `{!Collaborators} (res : option Response)
    (body : value) (c : Callback) :
  on_response res body = Ok c ->
  cb_err c = None ->
  exists r, res = Some r /\ statusCode r = VNum 200
            /\ c = cb_success body (header r).
Proof.
  intros Hc Hnone.
  destruct (on_response_outcome res body c Hc)
    as [[e ->] | (r & -> & H200 & _ & ->)]; [discriminate|].
  exists r. done.
Qed.

Lemma success_only_for_200_witness :
  exists r, Some (response (VNum 200)) = Some r /\ statusCode r = VNum 200
            /\ cb_success (VArr [VStr "XCP"]) (header (response (VNum 200)))
               = cb_success (VArr [VStr "XCP"]) (header r).
Proof.
  apply (success_only_for_200 (H := example_collaborators)
           (Some (response (VNum 200))) (VArr [VStr "XCP"])); reflexivity.
Defined.

(** X4: with status 200 and a body that is neither [undefined] nor [null], the
    callback reports the success exactly when the body is not the ECONNRESET
    literal and [errors] and [message] are not both non-null: a body with
    only one of the two is a success. *)
Theorem ok_status_success_iff `{!Collaborators} (r : Response) (body : value) :
  statusCode r = VNum 200 ->
  is_nullish body = false ->
  on_response (Some r) body = Ok (cb_success body (header r))
  <-> body ≠ VStr ECONNRESET_BODY
      /\ exists errors message,
           get body "errors" = Ok errors /\ get body "message" = Ok message
           /\ (is_nullish errors = true \/ is_nullish message = true).
Proof.
  intros H200 Hbody.
  destruct (ok_status_classification r body H200 Hbody) as [Hreset Hother].
  split.
  - intros Hsuccess. assert (Hne : body ≠ VStr ECONNRESET_BODY).
    { intros ->. unfold on_response in Hsuccess. rewrite H200 in Hsuccess.
      rewrite (proj2 (strict_eq_num_true _ _) eq_refl) in Hsuccess.
      cbn [negb] in Hsuccess.
      rewrite (proj2 (strict_eq_str_true _ _) eq_refl) in Hsuccess.
      destruct (JSON_parse _); [|done]. cbn [mbind result_bind] in Hsuccess.
      by rewrite (new_Errors_registered _ _ ECONNRESET_ERROR_registered)
        in Hsuccess. }
    split; [done|].
    destruct (Hother Hne) as (errors & message & Herrors & Hmessage & Hres).
    exists errors, message. split; [done|]. split; [done|].
    rewrite Hres in Hsuccess.
    destruct (is_nullish errors); [by left|].
    destruct (is_nullish message); [by right|]. cbn [negb andb] in Hsuccess.
    by destruct (new_Error message).
  - intros (Hne & errors & message & Herrors & Hmessage & Hnull).
    destruct (Hother Hne) as (errors' & message' & Herrors' & Hmessage' & ->).
    assert (errors' = errors) as -> by congruence.
    assert (message' = message) as -> by congruence.
    by destruct Hnull as [-> | ->]; [|rewrite andb_false_r].
Qed.

Lemma ok_status_success_iff_witness :
  on_response (H := example_collaborators) (Some (response (VNum 200)))
    (VObj {[ "message" := VStr "bad input" ]})
  = Ok (cb_success (VObj {[ "message" := VStr "bad input" ]})
          (header (response (VNum 200)))).
Proof.
  apply (ok_status_success_iff (H := example_collaborators)
           (response (VNum 200)) (VObj {[ "message" := VStr "bad input" ]})
           eq_refl eq_refl).
  split; [discriminate|].
  exists VUndefined, (VStr "bad input").
  split; [reflexivity|]. split; [reflexivity|]. left. reflexivity.
Defined.

(** ** What [_parseError] returns *)

(** X5: [_parseError] returns [undefined] for a falsy body and for no other:
    every truthy body gives an error or an exception. *)
Theorem _parseError_undefined_iff `{!Collaborators} (body : value) :
  _parseError body = Ok None <-> truthy body = false.
Proof.
  split.
  - intros Hnone. destruct (truthy body) eqn:Hbody; [|done].
    by destruct (_parseError_is_Some body None Hbody Hnone).
  - intros Hbody. unfold _parseError. by rewrite Hbody.
Qed.

Lemma _parseError_undefined_iff_witness :
  _parseError (H := example_collaborators) (VStr "") = Ok None.
Proof.
  apply (_parseError_undefined_iff (H := example_collaborators)). reflexivity.
Defined.

(** X6: a response with a truthy status other than 200 and 404 whose body is a
    string that [JSON.parse] rejects gives an [Error] whose message is
    [[object Object]]: the string is wrapped under [error], the message is
    taken from [message], and the wrapper itself becomes the message.  This
    comes after the status is written into the log line, which throws for a
    status without a string form and for no number. *)
Theorem unparsable_body_loses_its_text `{!Collaborators} (r : Response)
    (s : string) (e : exn) :
  truthy (statusCode r) = true ->
  strict_eq_num (statusCode r) 200 = false ->
  strict_eq_num (statusCode r) 404 = false ->
  s ≠ "" ->
  JSON_parse s = Throw e ->
  on_response (Some r) (VStr s)
  = (_ ← to_string (statusCode r);
     Ok (cb_error (Some (Error_ "[object Object]"))))
  /\ (forall n, statusCode r = VNum n ->
      on_response (Some r) (VStr s)
      = Ok (cb_error (Some (Error_ "[object Object]")))).
Proof.
  intros Hstatus H200 H404 Hs Hparse. apply truthy_VStr in Hs.
  rewrite (on_response_error_status r (VStr s) Hstatus H200 H404).
  rewrite Hs, (_parseError_unparsable s e Hs Hparse).
  split; [done|]. by intros n ->.
Qed.

Lemma unparsable_body_loses_its_text_witness :
  on_response (H := example_collaborators) (Some (response (VNum 502)))
    (VStr "Bad Gateway")
  = Ok (cb_error (Some (Error_ "[object Object]"))).
Proof.
  assert (Hs : "Bad Gateway" ≠ "") by discriminate.
  destruct (unparsable_body_loses_its_text (H := example_collaborators)
              (response (VNum 502)) "Bad Gateway" SyntaxError
              eq_refl eq_refl eq_refl Hs eq_refl) as [_ Hnum].
  apply (Hnum 502). reflexivity.
Defined.

(** X7: for an object body with a truthy [code], what the callback does
    depends on the code alone: two such bodies with the same code have the
    same outcome, whatever their [message] and other entries, and, when the
    statuses are numbers, whatever the two statuses are among the truthy
    ones other than 200 and 404.  The outcome is the registered kind, built
    without arguments, when the code names one, and an [Error] whose message
    is the code when it names nothing in the registry object. *)
Theorem code_alone_decides `{!Collaborators} (n1 n2 : Z) (h1 h2 : value)
    (m1 m2 : gmap string value) (code : value) :
  let r1 := {| statusCode := VNum n1; header := h1 |} in
  let r2 := {| statusCode := VNum n2; header := h2 |} in
  error_status r1 ->
  error_status r2 ->
  m1 !! "code" = Some code ->
  m2 !! "code" = Some code ->
  truthy code = true ->
  on_response (Some r1) (VObj m1) = on_response (Some r2) (VObj m2)
  /\ (forall k, to_string code = Ok k ->
      (k ∈ Errors ->
       on_response (Some r1) (VObj m1)
       = Ok (cb_error (Some (ClientError k []))))
      /\ (k ∉ Errors -> other_members !! k = None ->
          on_response (Some r1) (VObj m1)
          = Ok (cb_error (Some (Error_ k))))).
Proof.
  intros r1 r2 Hr1 Hr2 Hm1 Hm2 Hcode. subst r1 r2.
  assert (Hone : forall n h m,
             let r := {| statusCode := VNum n; header := h |} in
             error_status r ->
             m !! "code" = Some code ->
             on_response (Some r) (VObj m)
             = (e ← error_of_structure (VObj {[ "code" := code ]});
                Ok (cb_error e))).
  { intros n h m r (Hs & Ha & Hb) Hm.
    rewrite (on_response_error_status r (VObj m) Hs Ha Hb). subst r.
    cbn [to_string statusCode mbind result_bind truthy].
    rewrite (_parseError_structure (VObj m) (VObj m) eq_refl);
      [|left; done].
    unfold error_of_structure. cbn [get].
    rewrite Hm, lookup_singleton_eq. cbn [from_option id mbind result_bind].
    by rewrite Hcode. }
  split.
  - by rewrite (Hone n1 h1 m1), (Hone n2 h2 m2).
  - intros k Hk. rewrite (Hone n1 h1 m1) by done.
    unfold error_of_structure. cbn [get]. rewrite lookup_singleton_eq.
    cbn [from_option id mbind result_bind]. rewrite Hcode, Hk.
    cbn [mbind result_bind]. split.
    + intros Hin. by rewrite (bool_decide_eq_true_2 _ Hin).
    + intros Hno Hmember. by rewrite (bool_decide_eq_false_2 _ Hno), Hmember.
Qed.

Lemma code_alone_decides_witness :
  on_response (H := example_collaborators) (Some (response (VNum 401)))
    (VObj (<[ "message" := VStr "denied" ]> {[ "code" := VStr "NOT_AUTHORIZED" ]}))
  = on_response (H := example_collaborators) (Some (response (VNum 500)))
      (VObj {[ "code" := VStr "NOT_AUTHORIZED" ]}).
Proof.
  apply (code_alone_decides (H := example_collaborators) 401 500
           (header (response (VNum 401))) (header (response (VNum 500)))
           (<[ "message" := VStr "denied" ]> {[ "code" := VStr "NOT_AUTHORIZED" ]})
           {[ "code" := VStr "NOT_AUTHORIZED" ]} (VStr "NOT_AUTHORIZED"));
    try reflexivity; repeat split.
Defined.

(** ** Headers and body of every request *)

(** X9: the names of the headers of a request are fixed by the credentials
    alone: [x-client-version] only when none are attached, and that together
    with [x-identity] and [x-signature] when they are, whatever the method,
    the path, the body and the keys. *)
Theorem header_names `{!Collaborators} (self : API) (m u : string)
    (args : gmap string value) :
  dom (headers (_doRequest self m u args))
  = match credentials self with
    | Some _ => {[ "x-client-version"; "x-identity"; "x-signature" ]}
    | None => {[ "x-client-version" ]}
    end.
Proof.
  destruct (_doRequest_fields self m u args) as (-> & _).
  unfold _getHeaders. destruct (credentials self) as [c|]; cycle 1.
  { simpl. by rewrite dom_singleton_L. }
  destruct (truthy _); simpl;
    rewrite !dom_insert_L, dom_singleton_L; set_solver.
Qed.

(** X10: [_getHeaders] touches no entry of the body mapping other than
    [_requestPrivKey]: every other key is transmitted with the value, or the
    absence, it had in the arguments. *)
Theorem body_frame `{!Collaborators} (self : API) (m u : string)
    (args : gmap string value) (k : string) :
  k ≠ "_requestPrivKey" ->
  body (_doRequest self m u args) !! k = args !! k.
Proof.
  intros Hk. destruct (_doRequest_fields self m u args) as (_ & -> & _).
  unfold _getHeaders. destruct (credentials self) as [c|]; [|done].
  destruct (truthy _); simpl; [|done].
  by rewrite lookup_delete_ne.
Qed.

Lemma body_frame_witness :
  body (_doRequest (H := example_collaborators)
          (example_client (Some example_credentials)) "post" "/bvam"
          (<[ "_requestPrivKey" := VStr "override-key" ]>
             {[ "bvam" := VStr "data" ]}))
    !! "bvam"
  = Some (VStr "data").
Proof.
  etrans.
  - apply (body_frame (H := example_collaborators)). discriminate.
  - reflexivity.
Defined.

(** X11: the override key works once: [_getHeaders] takes it out of the object it
    is given, so a second request built from the same object is signed with
    the key of the credentials, or carries [undefined] as signature when
    they have none, and leaves the object as the first request left it. *)
Theorem override_key_is_used_once `{!Collaborators} (self : API)
    (c : Credentials) (m u : string) (args : gmap string value) (k : value) :
  credentials self = Some c ->
  args !! "_requestPrivKey" = Some k ->
  truthy k = true ->
  let '(h1, args1) := _getHeaders self m u args in
  let '(h2, args2) := _getHeaders self m u args1 in
  h1 !! "x-signature" = Some (_signRequest m u args1 k)
  /\ h2 !! "x-signature"
     = Some (if truthy (requestPrivKey c)
             then _signRequest m u args1 (requestPrivKey c)
             else VUndefined)
  /\ args2 = args1.
Proof.
  intros Hc Hk Htruthy.
  rewrite (_getHeaders_signed self c m u args k Hc);
    [| rewrite Hk; by apply js_or_truthy_l | done].
  set (args1 := delete "_requestPrivKey" args).
  assert (Hgone : args1 !! "_requestPrivKey" = None) by apply lookup_delete_eq.
  destruct (truthy (requestPrivKey c)) eqn:Hcred.
  - rewrite (_getHeaders_signed self c m u args1 (requestPrivKey c) Hc);
      [| by rewrite Hgone | done].
    rewrite (delete_id args1 _ Hgone).
    by rewrite !lookup_insert_eq.
  - rewrite (_getHeaders_unsigned self c m u args1 Hc);
      [| by rewrite Hgone].
    by rewrite !lookup_insert_eq.
Qed.

Lemma override_key_is_used_once_witness :
  let args : gmap string value :=
    <[ "_requestPrivKey" := VStr "override-key" ]> {[ "bvam" := VStr "data" ]} in
  let '(h1, args1) :=
    _getHeaders (H := example_collaborators)
      (example_client (Some example_credentials)) "post" "/bvam" args in
  let '(h2, args2) :=
    _getHeaders (H := example_collaborators)
      (example_client (Some example_credentials)) "post" "/bvam" args1 in
  h1 !! "x-signature"
  = Some (example_sign "post" "/bvam" args1 (VStr "override-key"))
  /\ h2 !! "x-signature"
     = Some (example_sign "post" "/bvam" args1 (VStr "credential-key"))
  /\ args2 = args1.
Proof.
  intros args.
  apply (override_key_is_used_once (H := example_collaborators)
           (example_client (Some example_credentials)) example_credentials
           "post" "/bvam" args (VStr "override-key"));
    reflexivity.
Defined.

(** X12: GET and DELETE requests carry the empty body, with or without
    credentials and keys. *)
Theorem get_and_delete_send_no_body `{!Collaborators} (self : API) (rnd : Z)
    (path : string) :
  body (_doGetRequest self rnd path) = ∅
  /\ body (_doDeleteRequest self path) = ∅.
Proof.
  assert (Hempty : forall m u, body (_doRequest self m u ∅) = ∅).
  { intros m u. destruct (_doRequest_fields self m u ∅) as (_ & -> & _).
    unfold _getHeaders. destruct (credentials self) as [c|]; [|done].
    destruct (truthy _); simpl; [apply delete_empty | done]. }
  split; apply Hempty.
Qed.

(** ** The separator of the cache-busting parameter *)

(** X13: the parameter [r] of a GET request is appended with [&] when the path
    has a [?] after a first character that is not [?], and with [?] in every
    other case: for a path without [?], and also for a path that begins
    with its only [?], which ends up with two. *)
Theorem cache_buster_separator `{!Collaborators} (self : API) (rnd : Z) :
  (forall (b : ascii) (rest : string),
      b ≠ "?"%char -> occurs "?" rest ->
      url (_doGetRequest self rnd (String b rest))
      = baseUrl self +:+ "/v1" +:+ String b rest +:+ "&r="
        +:+ decimal (_random 10000 99999 rnd))
  /\ (forall path : string,
      ~ occurs "?" path ->
      url (_doGetRequest self rnd path)
      = baseUrl self +:+ "/v1" +:+ path +:+ "?r="
        +:+ decimal (_random 10000 99999 rnd))
  /\ (forall rest : string,
      ~ occurs "?" rest ->
      url (_doGetRequest self rnd (String "?" rest))
      = baseUrl self +:+ "/v1" +:+ String "?" rest +:+ "?r="
        +:+ decimal (_random 10000 99999 rnd)).
Proof.
  split; [|split].
  - intros b rest Hb Hrest. rewrite _doGetRequest_url.
    by rewrite (proj2 (indexOf_positive_iff b rest)).
  - intros path Hpath.
    by rewrite _doGetRequest_url, (indexOf_positive_without path Hpath).
  - intros rest Hrest. rewrite _doGetRequest_url.
    destruct (indexOf_positive (String "?" rest) "?") eqn:Hpos; [|done].
    by apply indexOf_positive_iff in Hpos as [? _].
Qed.

Lemma cache_buster_separator_witness :
  url (_doGetRequest (H := example_collaborators) (example_client None) 48213
         "/balances/abc?verbose=1")
  = "http://localhost:3232/counterparty/api/v1/balances/abc?verbose=1&r=48213"
  /\ url (_doGetRequest (H := example_collaborators) (example_client None) 48213
            "?verbose=1")
     = "http://localhost:3232/counterparty/api/v1?verbose=1?r=48213".
Proof.
  destruct (cache_buster_separator (H := example_collaborators)
              (example_client None) 48213) as (Hamp & _ & Hfirst).
  split.
  - etrans; [apply (Hamp "/"%char "balances/abc?verbose=1")|reflexivity].
    + discriminate.
    + unfold occurs. simpl. tauto.
  - etrans; [apply (Hfirst "verbose=1")|reflexivity].
    unfold occurs. simpl. intros Hin.
    repeat (destruct Hin as [Hin | Hin]; [discriminate Hin|]). exact Hin.
Defined.

(** ** The operations *)

(** X14: [getTransactions] with [null], [undefined] or an empty list of ids
    reports the empty list as a success without a request, against any
    transport; with a list that has an id it posts [{address, txids}] to
    [/transactions]. *)
Theorem getTransactions_short_circuit `{!Collaborators} (self : API)
    (address : value) :
  (forall (txids : value) (rnd : Z)
          (transport : RequestArgs -> option Response * value),
      txids = VNull \/ txids = VUndefined \/ txids = VArr [] ->
      getTransactions self address txids
      = Ok (Invoke (cb_success (VArr []) VUndefined))
      /\ run self transport rnd (OpGetTransactions address txids)
         = Ok (cb_success (VArr []) VUndefined))
  /\ (forall (t : value) (l : list value),
      exists r : RequestArgs,
        getTransactions self address (VArr (t :: l)) = Ok (Dispatch r)
        /\ method r = "post"
        /\ url r = baseUrl self +:+ "/v1" +:+ "/transactions"
        /\ body r = <[ "txids" := VArr (t :: l) ]> {[ "address" := address ]}).
Proof.
  split.
  - intros txids rnd transport Htxids.
    assert (Heq : getTransactions self address txids
                  = Ok (Invoke (cb_success (VArr []) VUndefined))).
    { by destruct Htxids as [-> | [-> | ->]]. }
    split; [exact Heq|]. unfold run, perform. by rewrite Heq.
  - intros t l. eexists. split; [reflexivity|].
    split; [apply _doRequest_method|].
    split; [apply _doRequest_url|].
    apply _doPostRequest_plain_body.
    by rewrite lookup_insert_ne, lookup_singleton_ne.
Qed.

Lemma getTransactions_short_circuit_witness :
  run (H := example_collaborators) (example_client (Some example_credentials))
    (fun _ => (None, VUndefined)) 12345
    (OpGetTransactions (VStr "1Address") (VArr []))
  = Ok (cb_success (VArr []) VUndefined).
Proof.
  destruct (getTransactions_short_circuit (H := example_collaborators)
              (example_client (Some example_credentials)) (VStr "1Address"))
    as (Hempty & _).
  apply (Hempty (VArr []) 12345 (fun _ => (None, VUndefined))).
  right. right. reflexivity.
Defined.

(** X15: the emptiness test of [getTransactions] and [getBvamInfo] looks at
    [length] and at nothing else: the empty string and an object whose
    [length] is 0 are turned away like the empty list, while a number or a
    boolean, which has no [length], passes and is posted as it is. *)
Theorem emptiness_test_reads_length `{!Collaborators} (self : API) :
  getBvamInfo self (VStr "")
  = Ok (Invoke (cb_error (Some (ErrString "Asset names were invalid"))))
  /\ (forall m : gmap string value,
      m !! "length" = Some (VNum 0) ->
      getBvamInfo self (VObj m)
      = Ok (Invoke (cb_error (Some (ErrString "Asset names were invalid")))))
  /\ (forall assets : value,
      (exists n, assets = VNum n) \/ (exists b, assets = VBool b) ->
      exists r : RequestArgs,
        getBvamInfo self assets = Ok (Dispatch r)
        /\ url r = baseUrl self +:+ "/v1" +:+ "/bvam/info"
        /\ body r = {[ "assets" := assets ]}).
Proof.
  split; [reflexivity|]. split.
  - intros m Hm. unfold getBvamInfo, null_or_empty.
    cbn [is_nullish get]. by rewrite Hm.
  - intros assets Hassets.
    assert (Hpass : null_or_empty assets = Ok false).
    { by destruct Hassets as [[n ->] | [b ->]]. }
    unfold getBvamInfo. rewrite Hpass. cbn [mbind result_bind].
    eexists. split; [reflexivity|].
    split; [apply _doRequest_url|].
    by apply _doPostRequest_plain_body.
Qed.

Lemma emptiness_test_reads_length_witness :
  getBvamInfo (H := example_collaborators) (example_client None)
    (VObj {[ "length" := VNum 0 ]})
  = Ok (Invoke (cb_error (Some (ErrString "Asset names were invalid"))))
  /\ exists r : RequestArgs,
       getBvamInfo (H := example_collaborators) (example_client None) (VNum 7)
       = Ok (Dispatch r)
       /\ url r = "http://localhost:3232/counterparty/api/v1/bvam/info"
       /\ body r = {[ "assets" := VNum 7 ]}.
Proof.
  destruct (emptiness_test_reads_length (H := example_collaborators)
              (example_client None)) as (_ & Hobj & Hpass).
  split.
  - apply Hobj. reflexivity.
  - apply (Hpass (VNum 7)). left. exists 7. reflexivity.
Defined.

(** X16: [getVersion] and [getBalances] check nothing.  [getVersion] always
    dispatches one GET request with an empty body.  [getBalances] writes its
    argument into the path as a string and dispatches one GET request with
    an empty body whenever the argument has a string form, so that a missing
    address asks for [/balances/undefined]; for an argument without a string
    form the concatenation throws a [TypeError] before any request. *)
Theorem get_operations_check_nothing `{!Collaborators} (self : API)
    (draw : Z) :
  let n := _random 10000 99999 draw in
  (exists r, getVersion self draw = Ok (Dispatch r)
             /\ method r = "get" /\ body r = ∅
             /\ url r = baseUrl self +:+ "/v1/version?r=" +:+ decimal n)
  /\ (forall (address : value) (a : string),
      to_string address = Ok a ->
      exists r, getBalances self draw address = Ok (Dispatch r)
                /\ method r = "get" /\ body r = ∅
                /\ r = _doGetRequest self draw ("/balances/" +:+ a))
  /\ (forall address : value,
      unstringable address ->
      getBalances self draw address = Throw TypeError)
  /\ (exists r, getBalances self draw VUndefined = Ok (Dispatch r)
                /\ url r = baseUrl self +:+ "/v1/balances/undefined?r="
                           +:+ decimal n).
Proof.
  intros n.
  assert (Hbody : forall path, body (_doGetRequest self draw path) = ∅).
  { intros path. unfold _doGetRequest.
    destruct (_doRequest_fields self "get"
                ((path +:+ (if indexOf_positive path "?" then "&" else "?"))
                 +:+ "r=" +:+ decimal (_random 10000 99999 draw)) ∅)
      as (_ & -> & _).
    unfold _getHeaders. destruct (credentials self) as [c|]; [|done].
    destruct (truthy _); simpl; [apply delete_empty | done]. }
  split; [|split; [|split]].
  - eexists. split; [reflexivity|].
    split; [apply _doGetRequest_method|]. split; [apply Hbody|].
    by rewrite _doGetRequest_url.
  - intros address a Ha. unfold getBalances. rewrite Ha.
    eexists. split; [reflexivity|].
    split; [apply _doGetRequest_method|]. split; [apply Hbody | done].
  - intros address Hun. unfold getBalances. unfold unstringable in Hun.
    by rewrite Hun.
  - eexists. split; [reflexivity|]. by rewrite _doGetRequest_url.
Qed.

Lemma get_operations_check_nothing_witness :
  getBalances (H := example_collaborators) (example_client None) 48213
    (VObj {[ "toString" := VNum 1 ]})
  = Throw TypeError
  /\ exists r,
       getBalances (H := example_collaborators) (example_client None) 48213
         (VNum 7)
       = Ok (Dispatch r)
       /\ url r = "http://localhost:3232/counterparty/api/v1/balances/7?r=48213".
Proof.
  destruct (get_operations_check_nothing (H := example_collaborators)
              (example_client None) 48213) as (_ & Hstring & Hthrow & _).
  split.
  - apply Hthrow. reflexivity.
  - destruct (Hstring (VNum 7) "7" eq_refl) as (r & Hr & _ & _ & ->).
    eexists. split; [exact Hr | reflexivity].
Defined.

(** X17: every request that an operation dispatches is a GET or a POST to a URL
    that begins with the base URL and [/v1/]; no operation sends a PUT or a
    DELETE. *)
Theorem operations_stay_under_v1 `{!Collaborators} (self : API) (rnd : Z)
    (op : operation) (r : RequestArgs) :
  perform self rnd op = Ok (Dispatch r) ->
  (method r = "get" \/ method r = "post")
  /\ exists rest : string, url r = baseUrl self +:+ "/v1/" +:+ rest.
Proof.
  intros Hop. destruct op; simpl in Hop.
  - injection Hop as <-. split; [left; apply _doRequest_method|].
    rewrite _doGetRequest_url. eexists. reflexivity.
  - unfold getBalances in Hop.
    destruct (to_string address) as [a|]; simpl in Hop; [|discriminate].
    injection Hop as <-. split; [left; apply _doRequest_method|].
    rewrite _doGetRequest_url, (append_assoc "/balances/" a).
    eexists. reflexivity.
  - unfold getTransactions in Hop.
    destruct (null_or_empty txids) as [[|]|]; simpl in Hop; try discriminate.
    injection Hop as <-. split; [right; apply _doRequest_method|].
    unfold _doPostRequest. rewrite _doRequest_url. eexists. reflexivity.
  - unfold getBvamInfo in Hop.
    destruct (null_or_empty assets) as [[|]|]; simpl in Hop; try discriminate.
    injection Hop as <-. split; [right; apply _doRequest_method|].
    unfold _doPostRequest. rewrite _doRequest_url. eexists. reflexivity.
  - unfold addBvamData in Hop.
    destruct (is_nullish bvamData); try discriminate.
    injection Hop as <-. split; [right; apply _doRequest_method|].
    unfold _doPostRequest. rewrite _doRequest_url. eexists. reflexivity.
Qed.

Lemma operations_stay_under_v1_witness :
  let r := _doPostRequest (H := example_collaborators) (example_client None)
             "/bvam" {[ "bvam" := VStr "data" ]} in
  (method r = "get" \/ method r = "post")
  /\ exists rest : string, url r = BASE_URL +:+ "/v1/" +:+ rest.
Proof.
  apply (operations_stay_under_v1 (H := example_collaborators)
           (example_client None) 12345 (OpAddBvamData (VStr "data"))).
  reflexivity.
Defined.


Lemma primitive_stringable `{!Collaborators} (v : value) :
  unstringable v -> (exists l, v = VArr l) \/ (exists m, v = VObj m).
Proof.
  unfold unstringable. destruct v as [| |b|n|s|l|m]; try discriminate; eauto.
  by destruct b.
Qed.

Lemma loose_eq_num_throws_iff `{!Collaborators} (v : value) (n : Z) :
  (exists e, loose_eq_num v n = Throw e) <-> unstringable v.
Proof.
  split.
  - intros [e He]. apply unstringable_iff.
    destruct v as [| |b|k|s|l|m]; try discriminate;
      cbn [loose_eq_num] in He;
      (destruct (to_string _) as [t|e']; [discriminate | eauto]).
  - intros Hun. destruct (primitive_stringable v Hun) as [[l ->] | [m ->]];
      unfold unstringable in Hun; cbn [loose_eq_num]; rewrite Hun; eauto.
Qed.

Lemma null_or_empty_throws_iff `{!Collaborators} (x : value) :
  (exists e, null_or_empty x = Throw e)
  <-> is_nullish x = false
      /\ exists len, get x "length" = Ok len /\ unstringable len.
Proof.
  unfold null_or_empty. destruct (is_nullish x) eqn:Hnull.
  { split; [by intros [? ?] | by intros [? _]]. }
  destruct (get_Ok x "length" Hnull) as [len Hlen]. rewrite Hlen.
  cbn [mbind result_bind]. rewrite (loose_eq_num_throws_iff len 0). split.
  - intros Hun. split; [done|]. eauto.
  - intros (_ & len' & [= <-] & Hun). done.
Qed.

(** X18: on a client without credentials an operation throws before it
    dispatches or calls back in two situations and in no other:
    [getBalances] with an address that has no string form, and
    [getTransactions] or [getBvamInfo] with an argument, other than [null]
    and [undefined], whose [length] has no string form for [==] to compare.
    The test [x == null] comes before [x.length], so that the length is
    never read from [null] or [undefined]. *)
Theorem perform_throws_iff `{!Collaborators} (self : API) (draw : Z)
    (op : operation) :
  credentials self = None ->
  (exists e, perform self draw op = Throw e)
  <-> (exists address, op = OpGetBalances address /\ unstringable address)
      \/ (exists x,
            ((exists address, op = OpGetTransactions address x)
             \/ op = OpGetBvamInfo x)
            /\ is_nullish x = false
            /\ exists len, get x "length" = Ok len /\ unstringable len).
Proof.
  intros _. destruct op; cbn [perform].
  - split; [by intros [? ?]|].
    intros [(? & ? & _) | (? & [[? ?] | ?] & _)]; discriminate.
  - unfold getBalances. split.
    + intros [e He]. left. exists address. split; [done|].
      apply unstringable_iff.
      destruct (to_string address); [discriminate | eauto].
    + intros [(a & [= <-] & Hun) | (? & [[? ?] | ?] & _)]; try discriminate.
      unfold unstringable in Hun. rewrite Hun. eauto.
  - unfold getTransactions. split.
    + intros [e He]. right. exists txids. split; [left; eauto|].
      apply null_or_empty_throws_iff.
      destruct (null_or_empty txids) as [[|]|]; try discriminate; eauto.
    + intros [(? & ? & _) | (x & [[a [= <- <-]] | ?] & Hx)]; try discriminate.
      apply null_or_empty_throws_iff in Hx as [e He]. rewrite He. eauto.
  - unfold getBvamInfo. split.
    + intros [e He]. right. exists assets. split; [by right|].
      apply null_or_empty_throws_iff.
      destruct (null_or_empty assets) as [[|]|]; try discriminate; eauto.
    + intros [(? & ? & _) | (x & [[a ?] | [= <-]] & Hx)]; try discriminate.
      apply null_or_empty_throws_iff in Hx as [e He]. rewrite He. eauto.
  - unfold addBvamData. split.
    + intros [e He]. by destruct (is_nullish bvamData).
    + intros [(? & ? & _) | (? & [[? ?] | ?] & _)]; discriminate.
Qed.

Lemma perform_throws_iff_witness :
  exists e,
    perform (H := example_collaborators) (example_client None) 12345
      (OpGetBvamInfo (VObj {[ "length" := VObj {[ "toString" := VNum 1 ]} ]}))
    = Throw e.
Proof.
  apply (perform_throws_iff (H := example_collaborators) (example_client None));
    [reflexivity|].
  right. eexists. split; [right; reflexivity|]. split; [reflexivity|].
  eexists. split; reflexivity.
Defined.

(** ** The constructor *)

Lemma new_API_Ok (parsed_path : string -> value) (opts : value) (self : API) :
  new_API parsed_path opts = Ok self ->
  exists opts_baseUrl opts_timeout,
    get (js_or opts (VObj ∅)) "baseUrl" = Ok opts_baseUrl
    /\ get (js_or opts (VObj ∅)) "timeout" = Ok opts_timeout
    /\ VStr (baseUrl self) = js_or opts_baseUrl (VStr BASE_URL)
    /\ timeout self = js_or opts_timeout (VNum 50000)
    /\ credentials self = None.
Proof.
  unfold new_API.
  destruct (get (js_or opts (VObj ∅)) "baseUrl") as [b|]; [|done].
  destruct (get (js_or opts (VObj ∅)) "timeout") as [t|]; [|done].
  cbn [mbind result_bind].
  destruct (js_or b (VStr BASE_URL)) as [| | | |s| |] eqn:Hb; try done.
  intros [= <-]. exists b, t. by rewrite Hb.
Qed.

(** X19: whatever the options, an instance that the constructor returns has a
    base URL that is not empty, a truthy timeout and no credentials; a falsy
    [opts.baseUrl] is replaced by the default URL and a falsy [opts.timeout],
    0 among them, by 50000; without options both defaults apply. *)
Theorem constructor_defaults (parsed_path : string -> value) (opts : value)
    (self : API) :
  new_API parsed_path opts = Ok self ->
  baseUrl self ≠ ""
  /\ truthy (timeout self) = true
  /\ credentials self = None
  /\ (truthy opts = false ->
      baseUrl self = BASE_URL /\ timeout self = VNum 50000)
  /\ (forall m : gmap string value,
      opts = VObj m ->
      (truthy (default VUndefined (m !! "baseUrl")) = false ->
       baseUrl self = BASE_URL)
      /\ (truthy (default VUndefined (m !! "timeout")) = false ->
          timeout self = VNum 50000)).
Proof.
  intros Hnew.
  destruct (new_API_Ok parsed_path opts self Hnew)
    as (b & t & Hb & Ht & Hurl & Htimeout & Hcred).
  split; [|split; [|split; [done|split]]].
  - unfold js_or at 1 in Hurl. destruct (truthy b) eqn:Hbt.
    + intros Hempty. rewrite Hempty in Hurl. subst b. discriminate.
    + injection Hurl as ->. discriminate.
  - rewrite Htimeout. unfold js_or. by destruct (truthy t) eqn:Htt.
  - intros Hopts. rewrite (js_or_falsy_l _ _ Hopts) in Hb, Ht.
    injection Hb as <-. injection Ht as <-.
    rewrite Htimeout. by injection Hurl as ->.
  - intros m ->. cbn [js_or truthy get] in Hb, Ht.
    injection Hb as <-. injection Ht as <-. split.
    + intros Hfalsy. rewrite (js_or_falsy_l _ _ Hfalsy) in Hurl.
      by injection Hurl as ->.
    + intros Hfalsy. by rewrite Htimeout, (js_or_falsy_l _ _ Hfalsy).
Qed.

Lemma constructor_defaults_witness :
  new_API example_path (VObj {[ "timeout" := VNum 0 ]})
  = Ok (example_client None)
  /\ baseUrl (example_client None) = BASE_URL
  /\ timeout (example_client None) = VNum 50000.
Proof.
  assert (Hnew : new_API example_path (VObj {[ "timeout" := VNum 0 ]})
                 = Ok (example_client None)) by reflexivity.
  split; [exact Hnew|].
  destruct (constructor_defaults example_path (VObj {[ "timeout" := VNum 0 ]})
              (example_client None) Hnew) as (_ & _ & _ & _ & Hobj).
  destruct (Hobj {[ "timeout" := VNum 0 ]} eq_refl) as [Hurl Htimeout].
  split; [apply Hurl | apply Htimeout]; reflexivity.
Defined.

(** X20: a client that comes from the constructor, whose credentials nothing in
    the file sets, sends every request with the version header alone and
    with the body mapping exactly as given: a [_requestPrivKey] in it is
    neither used nor removed, and goes out with the payload. *)
Theorem constructed_client_is_unauthenticated `{!Collaborators}
    (parsed_path : string -> value) (opts : value) (self : API)
    (m u : string) (args : gmap string value) :
  new_API parsed_path opts = Ok self ->
  headers (_doRequest self m u args)
  = {[ "x-client-version" := VStr ("bwc-" +:+ Package_version) ]}
  /\ body (_doRequest self m u args) = args.
Proof.
  intros Hnew.
  destruct (new_API_Ok parsed_path opts self Hnew)
    as (_ & _ & _ & _ & _ & _ & Hcred).
  destruct (_doRequest_fields self m u args) as (-> & -> & _).
  by rewrite (_getHeaders_without_credentials self m u args Hcred).
Qed.

Lemma constructed_client_is_unauthenticated_witness :
  new_API example_path VUndefined = Ok (example_client None)
  /\ body (_doRequest (H := example_collaborators) (example_client None)
             "post" "/bvam"
             (<[ "_requestPrivKey" := VStr "override-key" ]>
                {[ "bvam" := VStr "data" ]}))
       !! "_requestPrivKey"
     = Some (VStr "override-key").
Proof.
  assert (Hnew : new_API example_path VUndefined = Ok (example_client None))
    by reflexivity.
  split; [exact Hnew|].
  destruct (constructed_client_is_unauthenticated (H := example_collaborators)
              example_path VUndefined (example_client None) "post" "/bvam"
              (<[ "_requestPrivKey" := VStr "override-key" ]>
                 {[ "bvam" := VStr "data" ]}) Hnew) as [_ ->].
  reflexivity.
Defined.

(** ** The ECONNRESET body *)

(** X8: the literal body [{"error":"read ECONNRESET"}] is told apart under
    status 200 only, where it gives ECONNRESET_ERROR with the parsed body;
    under a truthy status other than 200 and 404 the same body goes through
    [_parseError], which finds neither [code] nor [message] in it, and the
    error is an [Error] whose message is [[object Object]].  That comes
    after the status is written into the log line, which throws for a
    status without a string form and for no number. *)
Theorem econnreset_only_under_200 `{!Collaborators} (r : Response) :
  JSON_parse ECONNRESET_BODY = Ok (VObj {[ "error" := VStr "read ECONNRESET" ]}) ->
  (statusCode r = VNum 200 ->
   on_response (Some r) (VStr ECONNRESET_BODY)
   = Ok (cb_error (Some (ClientError "ECONNRESET_ERROR"
                           [VObj {[ "error" := VStr "read ECONNRESET" ]}]))))
  /\ (truthy (statusCode r) = true ->
      strict_eq_num (statusCode r) 200 = false ->
      strict_eq_num (statusCode r) 404 = false ->
      on_response (Some r) (VStr ECONNRESET_BODY)
      = (_ ← to_string (statusCode r);
         Ok (cb_error (Some (Error_ "[object Object]"))))
      /\ (forall n, statusCode r = VNum n ->
          on_response (Some r) (VStr ECONNRESET_BODY)
          = Ok (cb_error (Some (Error_ "[object Object]"))))).
Proof.
  intros Hparse. split.
  - intros H200. unfold on_response. rewrite H200.
    rewrite (proj2 (strict_eq_num_true _ _) eq_refl). cbn [negb].
    rewrite (proj2 (strict_eq_str_true _ _) eq_refl).
    rewrite Hparse. cbn [mbind result_bind].
    by rewrite (new_Errors_registered _ _ ECONNRESET_ERROR_registered).
  - intros Hstatus H200 H404.
    rewrite (on_response_error_status r _ Hstatus H200 H404).
    assert (Hbody : truthy (VStr ECONNRESET_BODY) = true) by reflexivity.
    rewrite Hbody.
    rewrite (_parseError_structure (VStr ECONNRESET_BODY)
               (VObj {[ "error" := VStr "read ECONNRESET" ]}) Hbody);
      [|right; eauto].
    split; [done|]. by intros n ->.
Qed.

Lemma econnreset_only_under_200_witness :
  on_response (H := example_collaborators) (Some (response (VNum 200)))
    (VStr ECONNRESET_BODY)
  = Ok (cb_error (Some (ClientError "ECONNRESET_ERROR"
                          [VObj {[ "error" := VStr "read ECONNRESET" ]}])))
  /\ on_response (H := example_collaborators) (Some (response (VNum 500)))
       (VStr ECONNRESET_BODY)
     = Ok (cb_error (Some (Error_ "[object Object]"))).
Proof.
  split.
  - destruct (econnreset_only_under_200 (H := example_collaborators)
                (response (VNum 200)) eq_refl) as [H200 _].
    apply H200. reflexivity.
  - destruct (econnreset_only_under_200 (H := example_collaborators)
                (response (VNum 500)) eq_refl) as [_ Hother].
    destruct (Hother eq_refl eq_refl eq_refl) as [_ Hnum].
    apply (Hnum 500). reflexivity.
Defined.
